(** * The Streamlit chat application of day1/02_streamlit_app: [ui.py]

    A shallow embedding of the user-interface module: the chat page with its
    feedback form, the history list with its filter and its pages, and the
    metrics analysis with its five views.  Cells of the history frame are
    binary64 floats, as pandas stores them, a missing cell being NaN. *)

From Stdlib Require Import Floats ZArith List String Bool Lia Permutation Sorted.
Import ListNotations.

#[local] Set Warnings "-inexact-float".
#[local] Open Scope Z_scope.

(** ** The pandas operations the module calls

    A frame is the list of its rows, in index order; a numeric column is a
    function from rows to cells.  A missing cell is NaN. *)
Module Pandas.

(** [pd.isna], [pd.notna] on a cell. *)
Definition isna (x : float) : bool := PrimFloat.is_nan x.
Definition notna (x : float) : bool := negb (isna x).

(** [Series.fillna(v)], cell by cell. *)
Definition fillna (v x : float) : float := if isna x then v else x.

(** A Python dict with float keys: the first entry whose key compares equal
    ([0.0] and [-0.0] are one key; NaN finds nothing). *)
Fixpoint dict_get {V : Type} (d : list (float * V)) (k : float) : option V :=
  match d with
  | [] => None
  | (k', v) :: d' => if (k' =? k)%float then Some v else dict_get d' k
  end.

(** Python's slice bounds: a negative bound counts from the end, and both
    are cut to the length. *)
Definition slice_index (len i : Z) : Z :=
  if i <? 0 then Z.max 0 (i + len) else Z.min i len.

Section Frames.
Context {A : Type}.

(** [df.dropna(subset=[c])] *)
Definition dropna (c : A -> float) (df : list A) : list A :=
  filter (fun r => notna (c r)) df.

(** [df[c].notna().any()] *)
Definition any_notna (c : A -> float) (df : list A) : bool :=
  existsb (fun r => notna (c r)) df.

(** [df.head(n)] *)
Definition head (n : nat) (df : list A) : list A := firstn n df.

(** [df.iloc[start:stop]] *)
Definition iloc (df : list A) (start stop : Z) : list A :=
  let len := Z.of_nat (List.length df) in
  let lo := slice_index len start in
  let hi := slice_index len stop in
  firstn (Z.to_nat (hi - lo)) (skipn (Z.to_nat lo) df).

(** [df.sort_values(c, ascending=False)]: the rows whose key is present,
    by key descending, then the rows whose key is NaN
    ([na_position='last']).  Rows of equal key are kept here in the
    order of the frame; pandas' default sort promises no order among them,
    and the theorems on the ranking do not depend on one. *)
Fixpoint insert_desc (c : A -> float) (x : A) (l : list A) : list A :=
  match l with
  | [] => [x]
  | y :: l' =>
      if (c y <=? c x)%float then x :: l else y :: insert_desc c x l'
  end.

Definition sort_values_desc (c : A -> float) (df : list A) : list A :=
  fold_right (insert_desc c) [] (filter (fun r => notna (c r)) df)
    ++ filter (fun r => isna (c r)) df.

(** The order of the sorted frame.  [key_ge c r r']: the key of [r] is at
    least that of [r'], both present.  [ranks_no_lower c r r']: [r] may stand
    before [r'] in a descending order that puts missing keys last. *)
Definition key_ge (c : A -> float) (r r' : A) : Prop :=
  (c r' <=? c r)%float = true.

Definition ranks_no_lower (c : A -> float) (r r' : A) : Prop :=
  isna (c r') = true \/ key_ge c r r'.
End Frames.

(** [Series.value_counts()] on a column of labels: missing labels are
    dropped, each label that occurs is counted, and the counts come out
    largest first. *)
Fixpoint present_labels (s : list (option string)) : list string :=
  match s with
  | [] => []
  | Some l :: s' => l :: present_labels s'
  | None :: s' => present_labels s'
  end.

Fixpoint unique (l : list string) : list string :=
  match l with
  | [] => []
  | x :: l' => x :: filter (fun y => negb (x =? y)%string) (unique l')
  end.

Fixpoint insert_count (x : string * nat) (l : list (string * nat)) : list (string * nat) :=
  match l with
  | [] => [x]
  | y :: l' =>
      if (snd y <=? snd x)%nat then x :: l else y :: insert_count x l'
  end.

Definition value_counts (s : list (option string)) : list (string * nat) :=
  let labels := present_labels s in
  fold_right insert_count []
    (map (fun k => (k, count_occ string_dec labels k)) (unique labels)).

End Pandas.

(** ** The history frame *)

(** A row of the frame [get_chat_history] returns: the columns the module
    reads.  [is_correct], [response_time] and the metric columns are numeric
    columns; a cell that was never filled is NaN. *)
Record row : Type := mkRow {
  id : Z;
  timestamp : string;
  question : string;
  answer : string;
  feedback : string;
  correct_answer : string;
  is_correct : float;
  response_time : float;
  bleu_score : float;
  similarity_score : float;
  word_count : float;
  relevance_score : float
}.

(** [df[name]] for the numeric columns the analysis selects by name; [None]
    when the frame has no such column. *)
Definition column (name : string) : option (row -> float) :=
  if (name =? "response_time")%string then Some response_time
  else if (name =? "bleu_score")%string then Some bleu_score
  else if (name =? "similarity_score")%string then Some similarity_score
  else if (name =? "word_count")%string then Some word_count
  else if (name =? "relevance_score")%string then Some relevance_score
  else if (name =? "is_correct")%string then Some is_correct
  else None.

(** ** What a run of the script does

    The calls a page makes, in order: the headings, texts, messages, charts
    and tables it renders through Streamlit and what it asks of the other
    modules ([llm], [database]).  The widgets (text areas, radios, buttons,
    number inputs, select boxes) are the inputs of a run, and they and the
    containers that only lay out what is inside them (forms, tabs,
    expanders) are not listed among its calls. *)

(** The arguments of one [save_to_db] call. *)
Record saved_feedback : Type := mkSaved {
  saved_question : string;
  saved_answer : string;
  saved_feedback_text : string;
  saved_correct_answer : string;
  saved_is_correct : float;
  saved_response_time : float
}.

(** The table [DataFrame.describe()] gives for one column. *)
Record describe_stats : Type := mkDescribe {
  stat_count : float;
  stat_mean : float;
  stat_std : float;
  stat_min : float;
  stat_q25 : float;
  stat_q50 : float;
  stat_q75 : float;
  stat_max : float
}.

Inductive st_call : Type :=
| st_subheader (body : string)
| st_markdown (body : string)
| st_write (body : string)
| st_info (body : string)
| st_info_response_time (seconds : float)
| st_warning (body : string)
| st_success (body : string)
| st_spinner (text : string)
| st_bar_chart_counts (data : list (string * nat))
| st_scatter_chart (y : string) (data : list (float * float * string))
| st_dataframe_describe (table : list (string * describe_stats))
| st_dataframe_means (columns : list string) (groups : list (string * list float))
| st_bar_chart_scores (data : list (Z * float))
| generate_response_call (user_question : string)
| save_to_db_call (args : saved_feedback)
| st_rerun.

(** [st_info_response_time t] is the call
    [st.info(f"Response time: {t:.2f}s")], kept with the number it formats. *)

(** A Python string is true when it is not empty. *)
Definition truthy (s : string) : bool := negb (s =? EmptyString)%string.

(** ** The chat page *)

Module Session.

(** [st.session_state]: each of the four keys is present or not yet. *)
Record session_state : Type := mkSession {
  current_question : option string;
  current_answer : option string;
  response_time : option float;
  feedback_given : option bool
}.

(** [st.session_state.get(key, default)] *)
Definition get {V : Type} (field : option V) (default : V) : V :=
  match field with
  | Some v => v
  | None => default
  end.

(** [if key not in st.session_state: st.session_state.key = default],
    for the four keys. *)
Definition initialise (s : session_state) : session_state :=
  {| current_question := Some (get (current_question s) EmptyString);
     current_answer := Some (get (current_answer s) EmptyString);
     response_time := Some (get (response_time s) 0%float);
     feedback_given := Some (get (feedback_given s) false) |}.

(** The four values as the page reads them, an absent key read as its
    default. *)
Definition values (s : session_state) : string * string * float * bool :=
  (get (current_question s) EmptyString,
   get (current_answer s) EmptyString,
   get (response_time s) 0%float,
   get (feedback_given s) false).

End Session.

(** The button a run was triggered by.  Streamlit reruns the script on each
    interaction, and a button is true only in the run its click triggered,
    so at most one of the page's buttons is true in a run. *)
Inductive click : Type :=
| no_click
| send_question
| submit_feedback
| next_question.

(** The values the widgets of the chat page return in one run. *)
Record chat_widgets : Type := mkWidgets {
  question_input : string;
  clicked : click;
  feedback_radio : string;
  correct_answer_input : string;
  feedback_comment_input : string
}.

Definition is_click (c d : click) : bool :=
  match c, d with
  | no_click, no_click | send_question, send_question
  | submit_feedback, submit_feedback | next_question, next_question => true
  | _, _ => false
  end.



(** [is_correct = 1.0 if feedback == "Accurate" else
      (0.5 if feedback == "Partially accurate" else 0.0)] *)
Definition feedback_score (feedback : string) : float :=
  if (feedback =? "Accurate")%string then 1.0%float
  else if (feedback =? "Partially accurate")%string then 0.5%float
  else 0.0%float.

(** [combined_feedback]: the label, then [": "] and the comment when there
    is one. *)
Definition combined_feedback (feedback feedback_comment : string) : string :=
  if truthy feedback_comment
  then (feedback ++ ": " ++ feedback_comment)%string
  else feedback.

(** [display_feedback_form]: the heading of the form and, on submit, the
    record saved, the flag set, the message and the rerun. *)
Definition display_feedback_form (s : Session.session_state) (w : chat_widgets)
  : Session.session_state * list st_call :=
  if is_click (clicked w) submit_feedback then
    let is_correct := feedback_score (feedback_radio w) in
    let combined := combined_feedback (feedback_radio w) (feedback_comment_input w) in
    ({| Session.current_question := Session.current_question s;
        Session.current_answer := Session.current_answer s;
        Session.response_time := Session.response_time s;
        Session.feedback_given := Some true |},
     [ st_subheader "Feedback";
       save_to_db_call
         {| saved_question := Session.get (Session.current_question s) EmptyString;
            saved_answer := Session.get (Session.current_answer s) EmptyString;
            saved_feedback_text := combined;
            saved_correct_answer := correct_answer_input w;
            saved_is_correct := is_correct;
            saved_response_time := Session.get (Session.response_time s) 0%float |};
       st_success "Feedback has been saved!";
       st_rerun ])
  else (s, [st_subheader "Feedback"]).

Section ChatPage.

(** [generate_response(pipe, question)] of the [llm] module, for the
    pipeline the page was given: the answer and the time it took. *)
Variable generate_response : string -> string * float.

(** The response on display: lines 46 to 48. *)
Definition response_display (s : Session.session_state) : list st_call :=
  [ st_subheader "Response:";
    st_markdown (Session.get (Session.current_answer s) EmptyString);
    st_info_response_time (Session.get (Session.response_time s) 0%float) ].

Definition display_chat_page (s0 : Session.session_state) (w : chat_widgets)
  : Session.session_state * list st_call :=
  let s := Session.initialise s0 in
  if is_click (clicked w) send_question && truthy (question_input w) then
    let '(answer, time) := generate_response (question_input w) in
    ({| Session.current_question := Some (question_input w);
        Session.current_answer := Some answer;
        Session.response_time := Some time;
        Session.feedback_given := Some false |},
     [ st_subheader "Enter your question";
       st_spinner "The model is generating a response";
       generate_response_call (question_input w);
       st_rerun ])
  else if truthy (Session.get (Session.current_question s) EmptyString)
          && truthy (Session.get (Session.current_answer s) EmptyString) then
    if negb (Session.get (Session.feedback_given s) false) then
      (fst (display_feedback_form s w),
       st_subheader "Enter your question" :: response_display s
       ++ snd (display_feedback_form s w))
    else if is_click (clicked w) next_question then
      ({| Session.current_question := Some EmptyString;
          Session.current_answer := Some EmptyString;
          Session.response_time := Some 0%float;
          Session.feedback_given := Some false |},
       st_subheader "Enter your question" :: response_display s ++ [st_rerun])
    else (s, st_subheader "Enter your question" :: response_display s)
  else (s, [st_subheader "Enter your question"]).

End ChatPage.

(** ** The history list *)

(** The options of the filter radio, which returns one of them. *)
Inductive display_option : Type :=
| show_all
| accurate_only
| partially_accurate_only
| inaccurate_only.

(** The [filter_options] dict. *)
Definition filter_options (o : display_option) : option float :=
  match o with
  | show_all => None
  | accurate_only => Some 1.0%float
  | partially_accurate_only => Some 0.5%float
  | inaccurate_only => Some 0.0%float
  end.

(** [history_df[history_df["is_correct"].notna() & (history_df["is_correct"] == filter_value)]],
    or the frame itself when there is no filter value. *)
Definition filter_history (filter_value : option float) (history_df : list row) : list row :=
  match filter_value with
  | Some v =>
      filter (fun r => Pandas.notna (is_correct r) && (is_correct r =? v)%float) history_df
  | None => history_df
  end.

(** [st.number_input(min_value, max_value, value)]: the widget returns the
    number entered when it lies within the two bounds; a number outside
    them is not accepted, and the widget returns its [value]. *)
Definition number_input (min_value max_value value entered : Z) : Z :=
  if (min_value <=? entered) && (entered <=? max_value) then entered else value.

Definition items_per_page : Z := 5.

Definition total_pages (total_items : Z) : Z :=
  (total_items + items_per_page - 1) / items_per_page.

(** What the history tab shows: the message for an empty selection, or the
    rows of the current page with the three numbers of the caption. *)
Inductive history_list_view : Type :=
| no_history_matches
| history_rows (paginated_df : list row) (first_item last_item total_items : Z).

Definition display_history_list
  (option_chosen : display_option) (page_entered : Z) (history_df : list row)
  : history_list_view :=
  let filtered_df := filter_history (filter_options option_chosen) history_df in
  match filtered_df with
  | [] => no_history_matches
  | _ :: _ =>
      let total_items := Z.of_nat (List.length filtered_df) in
      let current_page := number_input 1 (total_pages total_items) 1 page_entered in
      let start_idx := (current_page - 1) * items_per_page in
      let end_idx := start_idx + items_per_page in
      history_rows (Pandas.iloc filtered_df start_idx end_idx)
        (start_idx + 1) (Z.min end_idx total_items) total_items
  end.

(** ** The metrics analysis *)

Definition accuracy_labels : list (float * string) :=
  [ (1.0%float, "Accurate"%string);
    (0.5%float, "Partially accurate"%string);
    (0.0%float, "Inaccurate"%string) ].

(** The [Accuracy] column: [analysis_df['is_correct'].map(accuracy_labels)],
    missing where the score is no key of the dict. *)
Definition Accuracy (r : row) : option string :=
  Pandas.dict_get accuracy_labels (is_correct r).

(** The [efficiency_score] column:
    [is_correct / (response_time.fillna(0) + 0.1)]. *)
Definition efficiency_score (r : row) : float :=
  (is_correct r / (Pandas.fillna 0 (response_time r) + 0.1))%float.

(** [analysis_df.sort_values('efficiency_score', ascending=False).head(10)] *)
Definition top_efficiency (analysis_df : list row) : list row :=
  Pandas.head 10 (Pandas.sort_values_desc efficiency_score analysis_df).

(** The ranking the last view charts, [None] when no row has a response
    time: [top_efficiency.set_index('id')['efficiency_score']]. *)
Definition efficiency_ranking (analysis_df : list row) : option (list (Z * float)) :=
  if Pandas.any_notna response_time analysis_df
  then Some (map (fun r => (id r, efficiency_score r)) (top_efficiency analysis_df))
  else None.

(** A numeric cell by column name (NaN for a column the frame lacks). *)
Definition cell (name : string) (r : row) : float :=
  match column name with
  | Some c => c r
  | None => nan
  end.

(** [[m for m in names if m in analysis_df.columns and analysis_df[m].notna().any()]] *)
Definition valid_columns (names : list string) (analysis_df : list row) : list string :=
  filter (fun m => match column m with
                   | Some c => Pandas.any_notna c analysis_df
                   | None => false
                   end) names.

Definition metric_options : list string :=
  [ "bleu_score"; "similarity_score"; "relevance_score"; "word_count" ]%string.

Definition stats_cols : list string :=
  [ "response_time"; "bleu_score"; "similarity_score"; "word_count"; "relevance_score" ]%string.

(** [st.selectbox]: the option at the index chosen, the first one when
    nothing (or nothing valid) was chosen. *)
Definition selectbox (options : list string) (chosen : nat) : string :=
  nth chosen options (hd EmptyString options).

Definition has_label (k : string) (r : row) : bool :=
  match Accuracy r with
  | Some l => (l =? k)%string
  | None => false
  end.

(** The keys of [analysis_df.groupby('Accuracy')]: the labels that occur, in
    ascending order; rows with a missing label belong to no group.  Only
    the three labels of [accuracy_labels] can occur. *)
Definition group_keys (analysis_df : list row) : list string :=
  filter (fun k => existsb (has_label k) analysis_df)
    [ "Accurate"; "Inaccurate"; "Partially accurate" ]%string.

(** [analysis_df[['response_time', metric_option, 'Accuracy']].dropna()] *)
Definition chart_data (metric_option : string) (analysis_df : list row)
  : list (float * float * string) :=
  flat_map (fun r =>
    match Accuracy r with
    | Some l =>
        if Pandas.notna (response_time r) && Pandas.notna (cell metric_option r)
        then [ (response_time r, cell metric_option r, l) ]
        else []
    | None => []
    end) analysis_df.

Section Analysis.

(** The two pandas reductions whose numbers the page only passes on to
    [st.dataframe]: [Series.describe()] and [Series.mean()], each over the
    cells of one column. *)
Variable series_describe : list float -> describe_stats.
Variable series_mean : list float -> float.

(** The index chosen in the metric select box. *)
Variable metric_chosen : nat.

Definition accuracy_counts (analysis_df : list row) : list (string * nat) :=
  Pandas.value_counts (map Accuracy analysis_df).

Definition distribution_view (analysis_df : list row) : list st_call :=
  st_write "##### Distribution of accuracy"
  :: match accuracy_counts analysis_df with
     | [] => [ st_info "No accuracy data available." ]
     | _ :: _ => [ st_bar_chart_counts (accuracy_counts analysis_df) ]
     end.

Definition scatter_view (analysis_df : list row) : list st_call :=
  st_write "##### Relationship between response time and other metrics"
  :: match valid_columns metric_options analysis_df with
     | [] => [ st_info "No metric data available for comparison with response time." ]
     | valid_metric_options =>
         let metric_option := selectbox valid_metric_options metric_chosen in
         match chart_data metric_option analysis_df with
         | [] =>
             [ st_info ("No valid data for selected metric (" ++ metric_option
                        ++ ") and response time.") ]
         | data => [ st_scatter_chart metric_option data ]
         end
     end.

Definition statistics_view (analysis_df : list row) : list st_call :=
  st_write "##### Overall metrics statistics"
  :: match valid_columns stats_cols analysis_df with
     | [] => [ st_info "No metrics data available to compute statistics." ]
     | valid_stats_cols =>
         [ st_dataframe_describe
             (map (fun c => (c, series_describe (map (cell c) analysis_df)))
                valid_stats_cols) ]
     end.

(** [analysis_df.groupby('Accuracy')[columns].mean()] *)
Definition accuracy_groups (columns : list string) (analysis_df : list row)
  : list (string * list float) :=
  map (fun k =>
         (k, map (fun c => series_mean (map (cell c) (filter (has_label k) analysis_df)))
               columns))
    (group_keys analysis_df).

Definition groups_view (analysis_df : list row) : list st_call :=
  st_write "##### Average scores by accuracy level"
  :: match valid_columns stats_cols analysis_df with
     | [] => [ st_info "No data available to calculate average scores by accuracy level." ]
     | valid_stats_cols =>
         [ st_dataframe_means valid_stats_cols
             (accuracy_groups valid_stats_cols analysis_df) ]
     end.

Definition efficiency_view (analysis_df : list row) : list st_call :=
  st_write "##### Efficiency score (accuracy / (response time + 0.1))"
  :: match efficiency_ranking analysis_df with
     | Some [] => [ st_info "No efficiency score data available." ]
     | Some ranking => [ st_bar_chart_scores ranking ]
     | None => [ st_info "No response time data available to calculate efficiency score." ]
     end.

Definition display_metrics_analysis (history_df : list row) : list st_call :=
  st_write "#### Metrics Analysis"
  :: match Pandas.dropna is_correct history_df with
     | [] => [ st_warning "No evaluation data available for analysis." ]
     | analysis_df =>
         distribution_view analysis_df
         ++ scatter_view analysis_df
         ++ statistics_view analysis_df
         ++ groups_view analysis_df
         ++ efficiency_view analysis_df
     end.

(** ** The history page: both tabs over the frame of [get_chat_history] *)

Inductive history_page_view : Type :=
| no_chat_history
| history_tabs (tab1 : history_list_view) (tab2 : list st_call).

Definition display_history_page
  (option_chosen : display_option) (page_entered : Z) (history_df : list row)
  : history_page_view :=
  match history_df with
  | [] => no_chat_history
  | _ :: _ =>
      history_tabs (display_history_list option_chosen page_entered history_df)
        (display_metrics_analysis history_df)
  end.

End Analysis.

(** ** Frames for the examples *)

(** A record with the given id, accuracy score and response time, and no
    other metric. *)
Definition sample_row (i : Z) (accuracy time : float) : row :=
  {| id := i; timestamp := EmptyString; question := EmptyString; answer := EmptyString; feedback := EmptyString;
     correct_answer := EmptyString; is_correct := accuracy; response_time := time;
     bleu_score := nan; similarity_score := nan; word_count := nan;
     relevance_score := nan |}.

(** Twelve records with feedback, ids 1 to 12. *)
Definition twelve_rows : list row :=
  map (fun i => sample_row (Z.of_nat i) 1.0 1.0) (seq 1 12).

(** ** The specification's words, for comparison with the code *)

Module Spec.



(** The efficiency score as the specification words it. *)
Definition efficiencyScore (r : row) : float :=
  (is_correct r / (response_time r + 0.1))%float.

(** [r] ranks before [r']: a larger score, or the same score and no larger
    an id. *)
Definition ranks_before (r r' : row) : bool :=
  (efficiencyScore r' <? efficiencyScore r)%float
  || ((efficiencyScore r =? efficiencyScore r')%float && (id r <=? id r')).

Fixpoint insert_ranked (r : row) (l : list row) : list row :=
  match l with
  | [] => [r]
  | r' :: l' => if ranks_before r r' then r :: l else r' :: insert_ranked r l'
  end.

(** The ranking as the specification words it: records lacking
    [responseTimeSeconds] are excluded, the rest is ordered by score
    descending, ties by id ascending, and the first ten are kept. *)
Definition efficiency_ranking (records : list row) : list (Z * float) :=
  map (fun r => (id r, efficiencyScore r))
    (firstn 10
       (fold_right insert_ranked []
          (filter (fun r => Pandas.notna (response_time r)) records))).

End Spec.

(** ** Further parts of the pages *)

(** The rows a history tab shows, none for the empty-selection message. *)
Definition page_rows (v : history_list_view) : list row :=
  match v with
  | no_history_matches => []
  | history_rows paginated_df _ _ _ => paginated_df
  end.

(** Text is held as its UTF-8 bytes.  A byte [10xxxxxx] continues the
    character before it; every other byte starts a character. *)
Definition continues_character (c : Ascii.ascii) : bool :=
  match c with
  | Ascii.Ascii _ _ _ _ _ _ b6 b7 => b7 && negb b6
  end.

(** [len(s)]: the number of characters of a text. *)
Fixpoint characters (s : string) : nat :=
  match s with
  | EmptyString => 0%nat
  | String c s' =>
      if continues_character c then characters s' else S (characters s')
  end.

(** [s[:n]]: the first [n] characters of a text, each with all its bytes. *)
Fixpoint first_characters (n : nat) (s : string) : string :=
  match s with
  | EmptyString => EmptyString
  | String c s' =>
      if continues_character c then String c (first_characters n s')
      else match n with
           | O => EmptyString
           | S n' => String c (first_characters n' s')
           end
  end.

(** The title of a row's expander:
    [f"{row['timestamp']} - Q: {row['question'][:50] if row['question'] else 'N/A'}..."] *)
Definition question_excerpt (r : row) : string :=
  if truthy (question r) then first_characters 50 (question r) else "N/A"%string.

Definition expander_title (r : row) : string :=
  (timestamp r ++ " - Q: " ++ question_excerpt r ++ "...")%string.

(** A row with its text columns emptied: what is left is the id and the six
    numeric columns. *)
Definition without_text (r : row) : row :=
  {| id := id r; timestamp := EmptyString; question := EmptyString;
     answer := EmptyString; feedback := EmptyString;
     correct_answer := EmptyString; is_correct := is_correct r;
     response_time := response_time r; bleu_score := bleu_score r;
     similarity_score := similarity_score r; word_count := word_count r;
     relevance_score := relevance_score r |}.

(** The session of a page that was never run. *)
Definition fresh_session : Session.session_state :=
  {| Session.current_question := None; Session.current_answer := None;
     Session.response_time := None; Session.feedback_given := None |}.

(** A question of sixty characters of three bytes each (U+3042), and the
    row that asks it. *)
Definition hiragana_a : string :=
  String (Ascii.ascii_of_nat 227)
    (String (Ascii.ascii_of_nat 129) (String (Ascii.ascii_of_nat 130) EmptyString)).

Fixpoint repeat_text (n : nat) (s : string) : string :=
  match n with
  | O => EmptyString
  | S n' => (s ++ repeat_text n' s)%string
  end.

Definition sixty_characters_row : row :=
  {| id := 1; timestamp := "2024-01-01 00:00:00"; question := repeat_text 60 hiragana_a;
     answer := EmptyString; feedback := EmptyString; correct_answer := EmptyString;
     is_correct := 1.0%float; response_time := 1.0%float; bleu_score := nan;
     similarity_score := nan; word_count := nan; relevance_score := nan |}.

(** * Properties *)

(** ** Comparisons of binary64 cells *)

(** Facts on the comparisons of binary64 floats, from their specification
    over [spec_float]. *)
Module FloatOrder.

(** [SFcompare] compares mantissas with [Pos.compare_cont Eq], which is
    [Pos.compare] unfolded. *)
Ltac fold_pos_compare :=
  repeat match goal with
         | |- context [Pos.compare_cont Eq ?p ?q] =>
             change (Pos.compare_cont Eq p q) with (Pos.compare p q)
         end.

Lemma SFcompare_refl (x : spec_float) :
  x <> S754_nan -> SFcompare x x = Some Eq.
Proof.
  destruct x as [s|s| |s m e]; intros H; try congruence; simpl.
  - reflexivity.
  - destruct s; reflexivity.
  - fold_pos_compare. rewrite Z.compare_refl, Pos.compare_refl.
    destruct s; reflexivity.
Qed.

Lemma SFcompare_nan_l (y : spec_float) : SFcompare S754_nan y = None.
Proof. reflexivity. Qed.

Lemma SFcompare_nan_r (x : spec_float) : SFcompare x S754_nan = None.
Proof. destruct x; reflexivity. Qed.

Lemma SFcompare_some (x y : spec_float) :
  x <> S754_nan -> y <> S754_nan -> exists c, SFcompare x y = Some c.
Proof.
  destruct x, y; intros Hx Hy; try congruence; simpl; eauto.
Qed.

(** Swapping the arguments of a comparison reverses its result. *)
Lemma SFcompare_antisym (x y : spec_float) (c : comparison) :
  SFcompare x y = Some c -> SFcompare y x = Some (CompOpp c).
Proof.
  destruct x as [sx|sx| |sx mx ex], y as [sy|sy| |sy my ey]; simpl;
    intros H; try discriminate; injection H as <-;
    try (destruct sx; reflexivity); try (destruct sy; reflexivity);
    try (destruct sx, sy; reflexivity).
  fold_pos_compare.
  rewrite (Z.compare_antisym ex ey), (Pos.compare_antisym mx my).
  destruct sx, sy; try reflexivity;
    destruct (ex ?= ey); simpl; try reflexivity;
    destruct (mx ?= my)%positive; reflexivity.
Qed.

(** [SFleb] is transitive (neither argument being NaN follows from the
    comparisons). *)
Lemma SFleb_trans (x y z : spec_float) :
  SFleb x y = true -> SFleb y z = true -> SFleb x z = true.
Proof.
  unfold SFleb.
  destruct x as [sx|sx| |sx mx ex], y as [sy|sy| |sy my ey],
           z as [sz|sz| |sz mz ez]; simpl; try discriminate; try reflexivity;
    try (destruct sx; simpl; try discriminate; try reflexivity);
    try (destruct sy; simpl; try discriminate; try reflexivity);
    try (destruct sz; simpl; try discriminate; try reflexivity).
  all: fold_pos_compare.
  all: destruct (Z.compare_spec ex ey), (Z.compare_spec ey ez), (Z.compare_spec ex ez);
    simpl; try discriminate; try reflexivity; try lia.
  all: subst.
  all: destruct (Pos.compare_spec mx my), (Pos.compare_spec my mz), (Pos.compare_spec mx mz);
    simpl; try discriminate; try reflexivity; try lia.
Qed.

Lemma is_nan_Prim2SF (x : float) :
  PrimFloat.is_nan x = true <-> Prim2SF x = S754_nan.
Proof.
  unfold PrimFloat.is_nan. rewrite FloatAxioms.eqb_spec. unfold SFeqb. split.
  - intros H. destruct (Prim2SF x) eqn:E; try reflexivity;
      rewrite SFcompare_refl in H by congruence; discriminate.
  - intros ->. reflexivity.
Qed.

Lemma not_nan_Prim2SF (x : float) :
  PrimFloat.is_nan x = false <-> Prim2SF x <> S754_nan.
Proof.
  rewrite <- is_nan_Prim2SF. destruct (PrimFloat.is_nan x); split; congruence.
Qed.

(** NaN compares equal to nothing, itself included. *)
Lemma eqb_nan_l (x y : float) : PrimFloat.is_nan x = true -> (x =? y)%float = false.
Proof.
  intros H. apply is_nan_Prim2SF in H. rewrite FloatAxioms.eqb_spec, H. reflexivity.
Qed.

Lemma eqb_true_not_nan (x y : float) :
  (x =? y)%float = true -> PrimFloat.is_nan x = false.
Proof.
  intros H. destruct (PrimFloat.is_nan x) eqn:E; [|reflexivity].
  rewrite (eqb_nan_l x y E) in H. discriminate.
Qed.

Lemma eqb_sym (x y : float) : (x =? y)%float = (y =? x)%float.
Proof.
  rewrite !FloatAxioms.eqb_spec. unfold SFeqb.
  destruct (SFcompare (Prim2SF x) (Prim2SF y)) as [c|] eqn:E.
  - rewrite (SFcompare_antisym _ _ _ E). destruct c; reflexivity.
  - destruct (SFcompare (Prim2SF y) (Prim2SF x)) as [c|] eqn:E'; [|reflexivity].
    rewrite (SFcompare_antisym _ _ _ E') in E. discriminate.
Qed.

Lemma leb_total (x y : float) :
  PrimFloat.is_nan x = false -> PrimFloat.is_nan y = false ->
  (x <=? y)%float = true \/ (y <=? x)%float = true.
Proof.
  intros Hx Hy. apply not_nan_Prim2SF in Hx, Hy.
  rewrite !FloatAxioms.leb_spec. unfold SFleb.
  destruct (SFcompare_some _ _ Hx Hy) as [c Hc].
  rewrite Hc, (SFcompare_antisym _ _ _ Hc).
  destruct c; simpl; auto.
Qed.

Lemma leb_trans (x y z : float) :
  (x <=? y)%float = true -> (y <=? z)%float = true -> (x <=? z)%float = true.
Proof. rewrite !FloatAxioms.leb_spec. apply SFleb_trans. Qed.

Lemma leb_not_nan (x y : float) :
  (x <=? y)%float = true ->
  PrimFloat.is_nan x = false /\ PrimFloat.is_nan y = false.
Proof.
  rewrite FloatAxioms.leb_spec. unfold SFleb. intros H.
  split; apply not_nan_Prim2SF; intros E; rewrite E in H.
  - rewrite SFcompare_nan_l in H. discriminate.
  - rewrite SFcompare_nan_r in H. discriminate.
Qed.

End FloatOrder.

(** ** Rounding: a sum with one tenth is never zero

    The facts on [SpecFloat]'s rounding that the efficiency score rests on:
    a positive mantissa whose magnitude is above the smallest subnormal
    rounds to a non-zero float, and the sum of a non-negative float and the
    binary64 value of [0.1] is such a mantissa. *)
Module FloatRounding.

Lemma digits2_pos_bounds (p : positive) :
  2 ^ (Zpos (digits2_pos p) - 1) <= Zpos p < 2 ^ Zpos (digits2_pos p).
Proof.
  induction p as [p IH|p IH|]; simpl digits2_pos.
  - rewrite Pos2Z.inj_succ.
    replace (Z.succ (Zpos (digits2_pos p)) - 1) with (Z.succ (Zpos (digits2_pos p) - 1)) by lia.
    rewrite !Z.pow_succ_r by lia. lia.
  - rewrite Pos2Z.inj_succ.
    replace (Z.succ (Zpos (digits2_pos p)) - 1) with (Z.succ (Zpos (digits2_pos p) - 1)) by lia.
    rewrite !Z.pow_succ_r by lia. lia.
  - simpl. lia.
Qed.

Lemma digits2_pos_lower (p : positive) (k : Z) :
  2 ^ (k - 1) <= Zpos p -> k <= Zpos (digits2_pos p).
Proof.
  intros H. destruct (Z.le_gt_cases k (Zpos (digits2_pos p))) as [L|G]; [exact L|].
  exfalso. pose proof (digits2_pos_bounds p) as [_ U].
  assert (2 ^ Zpos (digits2_pos p) <= 2 ^ (k - 1)) by (apply Z.pow_le_mono_r; lia).
  lia.
Qed.

Lemma shr_1_m (r : shr_record) : shr_m (shr_1 r) = shr_m r / 2 \/ shr_m r < 0.
Proof.
  destruct r as [m r s]. destruct m as [|p|p]; [left; reflexivity| |right; simpl; lia].
  left. rewrite <- Z.div2_div. destruct p; reflexivity.
Qed.

Lemma iter_pos_shr_m (n : positive) (r : shr_record) :
  0 <= shr_m r -> shr_m (SpecFloat.iter_pos shr_1 n r) = shr_m r / 2 ^ Zpos n.
Proof.
  revert r. induction n as [n IH|n IH|]; intros r Hr; simpl SpecFloat.iter_pos.
  - assert (H1 : shr_m (shr_1 r) = shr_m r / 2) by (destruct (shr_1_m r); [assumption|lia]).
    assert (0 <= shr_m (shr_1 r)) by (rewrite H1; apply Z.div_pos; lia).
    assert (0 < 2 ^ Zpos n) by (apply Z.pow_pos_nonneg; lia).
    rewrite IH; rewrite IH; try assumption.
    2: { apply Z.div_pos; lia. }
    rewrite H1, !Z.div_div by lia. f_equal.
    transitivity (2 ^ (1 + Zpos n + Zpos n)); [|f_equal; lia].
    rewrite !Z.pow_add_r by lia. lia.
  - assert (0 < 2 ^ Zpos n) by (apply Z.pow_pos_nonneg; lia).
    rewrite IH; rewrite IH; try assumption.
    2: { apply Z.div_pos; lia. }
    rewrite !Z.div_div by lia. f_equal.
    transitivity (2 ^ (Zpos n + Zpos n)); [|f_equal; lia].
    rewrite !Z.pow_add_r by lia. lia.
  - destruct (shr_1_m r); [|lia]. rewrite H. reflexivity.
Qed.

Lemma shr_record_of_loc_m (m : Z) (l : location) : shr_m (shr_record_of_loc m l) = m.
Proof. destruct l as [|[ | | ]]; reflexivity. Qed.

(** Shifting a positive mantissa to its canonical exponent leaves it
    positive, and the magnitude it stands for does not drop. *)
Lemma shr_fexp_positive (p : positive) (e : Z) (l : location) :
  SpecFloat.emin prec emax < Zpos (digits2_pos p) + e ->
  exists p',
    shr_m (fst (shr_fexp prec emax (Zpos p) e l)) = Zpos p'
    /\ Zpos (digits2_pos p) + e <= Zpos (digits2_pos p') + snd (shr_fexp prec emax (Zpos p) e l).
Proof.
  intros H. unfold shr_fexp, shr. simpl Zdigits2.
  set (n := SpecFloat.fexp prec emax (Zpos (digits2_pos p) + e) - e).
  assert (Hn : n < Zpos (digits2_pos p)).
  { unfold n, SpecFloat.fexp, SpecFloat.emin, prec, emax in *. lia. }
  destruct n as [|q|q] eqn:En; simpl fst; simpl snd;
    try (exists p; rewrite shr_record_of_loc_m; split; [reflexivity|lia]).
  rewrite iter_pos_shr_m by (rewrite shr_record_of_loc_m; lia).
  rewrite shr_record_of_loc_m.
  pose proof (digits2_pos_bounds p) as [L _].
  assert (P : 0 < 2 ^ Zpos q) by (apply Z.pow_pos_nonneg; lia).
  assert (B : 2 ^ (Zpos (digits2_pos p) - Zpos q - 1) <= Zpos p / 2 ^ Zpos q).
  { apply Z.div_le_lower_bound; [exact P|].
    rewrite <- Z.pow_add_r by lia.
    replace (Zpos q + (Zpos (digits2_pos p) - Zpos q - 1)) with (Zpos (digits2_pos p) - 1) by lia.
    exact L. }
  assert (0 < 2 ^ (Zpos (digits2_pos p) - Zpos q - 1)) by (apply Z.pow_pos_nonneg; lia).
  destruct (Zpos p / 2 ^ Zpos q) as [|p'|p'] eqn:Eq; try lia.
  exists p'. split; [reflexivity|].
  pose proof (digits2_pos_lower p' (Zpos (digits2_pos p) - Zpos q) B). lia.
Qed.

Lemma round_nearest_even_positive (p : positive) (l : location) :
  exists p', round_nearest_even (Zpos p) l = Zpos p'
             /\ Zpos (digits2_pos p) <= Zpos (digits2_pos p').
Proof.
  assert (S : Zpos (digits2_pos p) <= Zpos (digits2_pos (p + 1))).
  { apply digits2_pos_lower. pose proof (digits2_pos_bounds p). lia. }
  destruct l as [|[ | | ]]; simpl round_nearest_even.
  - exists p. split; [reflexivity|lia].
  - match goal with |- context [if ?b then _ else _] => destruct b end.
    + exists p. split; [reflexivity|lia].
    + exists (p + 1)%positive. split; [reflexivity|exact S].
  - exists p. split; [reflexivity|lia].
  - exists (p + 1)%positive. split; [reflexivity|exact S].
Qed.

Lemma binary_round_aux_nonzero (sx : bool) (p : positive) (e : Z) (l : location) :
  SpecFloat.emin prec emax < Zpos (digits2_pos p) + e ->
  SFeqb (binary_round_aux prec emax sx (Zpos p) e l) (S754_zero false) = false.
Proof.
  intros H. unfold binary_round_aux.
  destruct (shr_fexp_positive p e l H) as (p1 & E1 & D1).
  destruct (shr_fexp prec emax (Zpos p) e l) as [mrs' e'] eqn:S1. cbn [fst snd] in E1, D1.
  rewrite E1.
  destruct (round_nearest_even_positive p1 (loc_of_shr_record mrs')) as (p2 & E2 & D2).
  rewrite E2.
  assert (H2 : SpecFloat.emin prec emax < Zpos (digits2_pos p2) + e') by lia.
  destruct (shr_fexp_positive p2 e' loc_Exact H2) as (p3 & E3 & D3).
  destruct (shr_fexp prec emax (Zpos p2) e' loc_Exact) as [mrs'' e''] eqn:S2. cbn [fst snd] in E3, D3.
  rewrite E3.
  destruct (e'' <=? emax - prec); destruct sx; reflexivity.
Qed.

Lemma iter_xO_value (m d : positive) :
  Zpos (Pos.iter xO m d) = Zpos m * 2 ^ Zpos d.
Proof.
  induction d as [|d IH] using Pos.peano_ind.
  - simpl. lia.
  - rewrite Pos.iter_succ, Pos2Z.inj_xO, IH, Pos2Z.inj_succ, Z.pow_succ_r by lia. lia.
Qed.

Lemma shl_align_value (m : positive) (e e' : Z) :
  e' <= e ->
  Zpos (fst (shl_align m e e')) = Zpos m * 2 ^ (e - e')
  /\ snd (shl_align m e e') = e'.
Proof.
  intros H. unfold shl_align.
  destruct (e' - e) as [|d|d] eqn:E; cbn [fst snd]; try lia.
  - replace (e - e') with 0 by lia. split; lia.
  - rewrite iter_xO_value. replace (e - e') with (Zpos d) by lia. split; lia.
Qed.

Lemma shl_align_keeps (m : positive) (e e' : Z) :
  e <= e' -> shl_align m e e' = (m, e).
Proof.
  intros H. unfold shl_align. destruct (e' - e) eqn:E; try reflexivity. lia.
Qed.

Lemma binary_round_nonzero (sx : bool) (m : positive) (e : Z) :
  SpecFloat.emin prec emax < Zpos (digits2_pos m) + e ->
  SFeqb (binary_round prec emax sx m e) (S754_zero false) = false.
Proof.
  intros H. unfold binary_round.
  set (tg := SpecFloat.fexp prec emax (Zpos (digits2_pos m) + e)).
  destruct (Z.le_gt_cases e tg) as [L|G].
  - rewrite shl_align_keeps by exact L. apply binary_round_aux_nonzero. exact H.
  - destruct (shl_align_value m e tg ltac:(lia)) as [V S].
    destruct (shl_align m e tg) as [mz ez]. cbn [fst snd] in V, S. subst ez.
    apply binary_round_aux_nonzero.
    pose proof (digits2_pos_bounds m) as [Lm _].
    assert (B : 2 ^ (Zpos (digits2_pos m) + (e - tg) - 1) <= Zpos mz).
    { rewrite V.
      replace (Zpos (digits2_pos m) + (e - tg) - 1)
        with ((Zpos (digits2_pos m) - 1) + (e - tg)) by lia.
      rewrite Z.pow_add_r by lia.
      apply Z.mul_le_mono_nonneg_r; [apply Z.pow_nonneg; lia|exact Lm]. }
    pose proof (digits2_pos_lower mz _ B). lia.
Qed.

(** The mantissa and exponent of the binary64 float nearest to one tenth. *)
Lemma Prim2SF_tenth : Prim2SF 0.1 = S754_finite false 7205759403792794 (-56).
Proof. reflexivity. Qed.

Lemma SFadd_tenth_nonzero (x : spec_float) :
  SFleb (S754_zero false) x = true ->
  SFeqb (SF64add x (S754_finite false 7205759403792794 (-56))) (S754_zero false) = false.
Proof.
  destruct x as [s|s| |s m e]; try discriminate.
  - reflexivity.
  - destruct s; [discriminate|reflexivity].
  - destruct s; [discriminate|]. intros _.
    unfold SF64add, SFadd. cbn [cond_Zopp].
    set (ez := Z.min e (-56)).
    destruct (shl_align_value 7205759403792794 (-56) ez ltac:(unfold ez; lia)) as [V _].
    set (t' := fst (shl_align 7205759403792794 (-56) ez)) in *.
    set (m' := fst (shl_align m e ez)).
    change (Zpos m' + Zpos t') with (Zpos (m' + t')).
    cbn [binary_normalize].
    apply binary_round_nonzero.
    assert (B : 2 ^ (- 3 - ez - 1) <= Zpos (m' + t')).
    { rewrite Pos2Z.inj_add, V.
      assert (2 ^ 52 * 2 ^ (-56 - ez) <= 7205759403792794 * 2 ^ (-56 - ez)).
      { apply Z.mul_le_mono_nonneg_r; [apply Z.pow_nonneg; lia|].
        change (2 ^ 52) with 4503599627370496. lia. }
      rewrite <- Z.pow_add_r in H by (unfold ez; lia).
      replace (52 + (-56 - ez)) with (-3 - ez - 1) in H by lia. lia. }
    pose proof (digits2_pos_lower _ _ B). unfold SpecFloat.emin, prec, emax. lia.
Qed.

(** Adding one tenth to a non-negative float never gives zero. *)
Lemma add_tenth_nonzero (t : float) :
  (0 <=? t)%float = true -> (t + 0.1 =? 0)%float = false.
Proof.
  rewrite FloatAxioms.leb_spec, FloatAxioms.eqb_spec, FloatAxioms.add_spec, Prim2SF_tenth.
  apply SFadd_tenth_nonzero.
Qed.

End FloatRounding.

(** ** The feedback form *)


(** The conditional expression itself has no failure: its last branch would
    score any other string [0.0].  The radio never gives it one. *)
Remark feedback_score_last_branch (feedback : string) :
  feedback <> "Accurate"%string -> feedback <> "Partially accurate"%string ->
  feedback_score feedback = 0.0%float.
Proof.
  intros H1 H2. unfold feedback_score.
  apply String.eqb_neq in H1, H2. rewrite H1, H2. reflexivity.
Qed.


(** C4: two submissions that differ only in the comment save the same
    accuracy score (and the same question, answer, reference and response
    time); the comment only reaches the stored feedback text, which is the
    label alone for an empty comment and the label, [": "] and the comment
    otherwise. *)
Theorem comment_never_changes_score
  (s : Session.session_state) (q label correct comment1 comment2 : string) :
  exists a1 a2,
    snd (display_feedback_form s (mkWidgets q submit_feedback label correct comment1))
    = [ st_subheader "Feedback"; save_to_db_call a1;
        st_success "Feedback has been saved!"; st_rerun ]
    /\ snd (display_feedback_form s (mkWidgets q submit_feedback label correct comment2))
       = [ st_subheader "Feedback"; save_to_db_call a2;
           st_success "Feedback has been saved!"; st_rerun ]
    /\ saved_is_correct a1 = saved_is_correct a2
    /\ saved_is_correct a1 = feedback_score label
    /\ saved_question a1 = saved_question a2
    /\ saved_answer a1 = saved_answer a2
    /\ saved_correct_answer a1 = saved_correct_answer a2
    /\ saved_response_time a1 = saved_response_time a2
    /\ saved_feedback_text a1
       = (if string_dec comment1 EmptyString then label else label ++ ": " ++ comment1)%string
    /\ saved_feedback_text a2
       = (if string_dec comment2 EmptyString then label else label ++ ": " ++ comment2)%string.
Proof.
  assert (C : forall c, combined_feedback label c
                        = (if string_dec c EmptyString then label else label ++ ": " ++ c)%string).
  { intros c. unfold combined_feedback, truthy.
    destruct (string_dec c EmptyString) as [->|N]; [reflexivity|].
    apply String.eqb_neq in N. rewrite N. reflexivity. }
  do 2 eexists. split; [reflexivity|]. split; [reflexivity|].
  simpl. repeat split; apply C.
Qed.

(** ** The chat page *)

Lemma initialise_values (s : Session.session_state) :
  Session.values (Session.initialise s) = Session.values s.
Proof. destruct s as [[q|] [a|] [t|] [g|]]; reflexivity. Qed.

Lemma initialise_idempotent (s : Session.session_state) :
  Session.initialise (Session.initialise s) = Session.initialise s.
Proof. reflexivity. Qed.

Lemma truthy_true (s : string) : truthy s = true <-> s <> EmptyString.
Proof.
  unfold truthy. rewrite negb_true_iff. apply String.eqb_neq.
Qed.

Lemma is_click_true (c d : click) : is_click c d = true <-> c = d.
Proof. destruct c, d; simpl; split; congruence. Qed.

Lemma display_feedback_form_no_generation
  (s : Session.session_state) (w : chat_widgets) (q : string) :
  ~ In (generate_response_call q) (snd (display_feedback_form s w)).
Proof.
  unfold display_feedback_form.
  destruct (is_click (clicked w) submit_feedback); simpl; intuition discriminate.
Qed.

(** The run that is no send with a question renders the session's
    exchange, if it holds one, and then goes by the buttons. *)
Lemma display_chat_page_no_send
  (generate_response : string -> string * float)
  (s : Session.session_state) (w : chat_widgets) :
  is_click (clicked w) send_question && truthy (question_input w) = false ->
  display_chat_page generate_response s w
  = let s1 := Session.initialise s in
    if truthy (Session.get (Session.current_question s1) EmptyString)
       && truthy (Session.get (Session.current_answer s1) EmptyString)
    then if negb (Session.get (Session.feedback_given s1) false)
         then (fst (display_feedback_form s1 w),
               st_subheader "Enter your question" :: response_display s1
               ++ snd (display_feedback_form s1 w))
         else if is_click (clicked w) next_question
              then ({| Session.current_question := Some EmptyString;
                       Session.current_answer := Some EmptyString;
                       Session.response_time := Some 0%float;
                       Session.feedback_given := Some false |},
                    st_subheader "Enter your question" :: response_display s1
                    ++ [st_rerun])
              else (s1, st_subheader "Enter your question" :: response_display s1)
    else (s1, [st_subheader "Enter your question"]).
Proof.
  intros H. unfold display_chat_page. rewrite H. reflexivity.
Qed.

(** C9: sending an empty question makes no generation call, nor any save or
    rerun: the run only renders the page, that is the heading of the
    question, then, if the session holds a question and an answer, the
    response with its time and, when it has no feedback yet, the heading of
    the feedback form.  It leaves the four session values as they were (a
    key the session did not have yet is set to the default it was read as; a
    session the page has initialised is left identical).  A generation call
    is made exactly when the send button was pressed with a non-empty
    question, and it is made for that question. *)
Theorem empty_question_changes_nothing
  (generate_response : string -> string * float)
  (s : Session.session_state) (w : chat_widgets) :
  (forall label correct comment,
      let w0 := mkWidgets EmptyString send_question label correct comment in
      (forall q, ~ In (generate_response_call q)
                     (snd (display_chat_page generate_response s w0)))
      /\ (forall args, ~ In (save_to_db_call args)
                          (snd (display_chat_page generate_response s w0)))
      /\ ~ In st_rerun (snd (display_chat_page generate_response s w0))
      /\ snd (display_chat_page generate_response s w0)
         = st_subheader "Enter your question"
           :: (if truthy (Session.get (Session.current_question s) EmptyString)
                  && truthy (Session.get (Session.current_answer s) EmptyString)
               then [ st_subheader "Response:";
                      st_markdown (Session.get (Session.current_answer s) EmptyString);
                      st_info_response_time
                        (Session.get (Session.response_time s) 0%float) ]
                    ++ (if Session.get (Session.feedback_given s) false
                        then []
                        else [st_subheader "Feedback"])
               else [])
      /\ fst (display_chat_page generate_response s w0) = Session.initialise s
      /\ Session.values (fst (display_chat_page generate_response s w0)) = Session.values s
      /\ fst (display_chat_page generate_response (Session.initialise s) w0)
         = Session.initialise s)
  /\ (forall q,
        In (generate_response_call q) (snd (display_chat_page generate_response s w))
        <-> clicked w = send_question /\ question_input w <> EmptyString
            /\ q = question_input w).
Proof.
  split.
  - intros label correct comment w0.
    assert (E : forall s1,
               display_chat_page generate_response s1 w0
               = (Session.initialise s1,
                  st_subheader "Enter your question"
                  :: (if truthy (Session.get (Session.current_question s1) EmptyString)
                         && truthy (Session.get (Session.current_answer s1) EmptyString)
                      then [ st_subheader "Response:";
                             st_markdown (Session.get (Session.current_answer s1) EmptyString);
                             st_info_response_time
                               (Session.get (Session.response_time s1) 0%float) ]
                           ++ (if Session.get (Session.feedback_given s1) false
                               then []
                               else [st_subheader "Feedback"])
                      else []))).
    { intros s1. rewrite display_chat_page_no_send by reflexivity. cbv zeta.
      destruct s1 as [q a t g].
      cbn [Session.initialise Session.get Session.current_question Session.current_answer
           Session.feedback_given Session.response_time response_display].
      destruct (truthy _ && truthy _); [|reflexivity].
      destruct (Session.get g false); reflexivity. }
    rewrite !E. cbn [fst snd].
    assert (N : forall c,
               In c (st_subheader "Enter your question"
                     :: (if truthy (Session.get (Session.current_question s) EmptyString)
                            && truthy (Session.get (Session.current_answer s) EmptyString)
                         then [ st_subheader "Response:";
                                st_markdown (Session.get (Session.current_answer s) EmptyString);
                                st_info_response_time
                                  (Session.get (Session.response_time s) 0%float) ]
                              ++ (if Session.get (Session.feedback_given s) false
                                  then []
                                  else [st_subheader "Feedback"])
                         else [])) ->
               (exists b, c = st_subheader b) \/ (exists b, c = st_markdown b)
               \/ exists t, c = st_info_response_time t).
    { intros c. destruct (truthy _ && truthy _);
        [destruct (Session.get (Session.feedback_given s) false)|]; simpl;
        intuition (subst; eauto). }
    split; [|split; [|split; [|split; [reflexivity|split; [reflexivity|split]]]]].
    + intros q H. apply N in H. destruct H as [(b & H)|[(b & H)|(t & H)]]; discriminate.
    + intros args H. apply N in H. destruct H as [(b & H)|[(b & H)|(t & H)]]; discriminate.
    + intros H. apply N in H. destruct H as [(b & H)|[(b & H)|(t & H)]]; discriminate.
    + apply initialise_values.
    + reflexivity.
  - intros q.
    destruct (is_click (clicked w) send_question && truthy (question_input w)) eqn:Hsend.
    + apply andb_true_iff in Hsend. destruct Hsend as [Hc Ht].
      unfold display_chat_page. rewrite Hc, Ht. cbn [andb].
      destruct (generate_response (question_input w)) as [answer time]. cbn [snd].
      apply is_click_true in Hc. apply truthy_true in Ht. split.
      * intros [H|[H|[H|[H|[]]]]]; try discriminate. injection H as <-. auto.
      * intros (_ & _ & ->). right. right. left. reflexivity.
    + split.
      * intros H. exfalso. rewrite display_chat_page_no_send in H by exact Hsend.
        cbv zeta in H. revert H.
        destruct (truthy _ && truthy _); [|simpl; intuition discriminate].
        destruct (negb _).
        -- cbn [snd]. intros [H|H]; [discriminate|]. apply in_app_iff in H.
           destruct H as [H|H].
           ++ unfold response_display in H. simpl in H. intuition discriminate.
           ++ revert H. apply display_feedback_form_no_generation.
        -- destruct (is_click (clicked w) next_question); cbn [snd];
             unfold response_display; simpl; intuition discriminate.
      * intros (C & N & _). apply (proj2 (is_click_true _ _)) in C.
        apply truthy_true in N. rewrite C, N in Hsend. discriminate.
Qed.

(** ** The history list *)

Lemma notna_true (x : float) : Pandas.notna x = true <-> PrimFloat.is_nan x = false.
Proof. unfold Pandas.notna, Pandas.isna. apply negb_true_iff. Qed.

(** The presence test of the filter is implied by the equality test. *)
Lemma present_and_equal (x v : float) :
  Pandas.notna x && (x =? v)%float = (x =? v)%float.
Proof.
  destruct (x =? v)%float eqn:E.
  - apply FloatOrder.eqb_true_not_nan in E. apply notna_true in E.
    rewrite E. reflexivity.
  - apply andb_false_r.
Qed.

(** C7: with a filter value (the three options give [1.0], [0.5] and [0.0])
    the history filter keeps, in the order of the frame, exactly the records
    whose accuracy score is present and equal to the value as binary64
    floats; with "Show All" it returns the frame unchanged. *)
Theorem filter_history_exact (history_df : list row) :
  filter_options show_all = None
  /\ filter_options accurate_only = Some 1.0%float
  /\ filter_options partially_accurate_only = Some 0.5%float
  /\ filter_options inaccurate_only = Some 0.0%float
  /\ filter_history None history_df = history_df
  /\ (forall v : float,
        filter_history (Some v) history_df
        = filter (fun r => (is_correct r =? v)%float) history_df
        /\ forall r : row,
             In r (filter_history (Some v) history_df)
             <-> In r history_df
                 /\ Pandas.notna (is_correct r) = true
                 /\ (is_correct r =? v)%float = true).
Proof.
  do 5 (split; [reflexivity|]).
  intros v. unfold filter_history. split.
  - apply filter_ext. intros r. apply present_and_equal.
  - intros r. rewrite filter_In, andb_true_iff. tauto.
Qed.

Lemma total_pages_ceil (n : Z) :
  5 * (total_pages n - 1) < n <= 5 * total_pages n.
Proof.
  unfold total_pages, items_per_page.
  pose proof (Z.div_mod (n + 5 - 1) 5 ltac:(lia)).
  pose proof (Z.mod_pos_bound (n + 5 - 1) 5 ltac:(lia)).
  lia.
Qed.

(** The page widget returns a number within its bounds: the number
    entered, or its value. *)
Lemma number_input_bounds (lo hi value x : Z) :
  lo <= value <= hi ->
  lo <= number_input lo hi value x <= hi
  /\ (lo <= x <= hi -> number_input lo hi value x = x)
  /\ (x < lo \/ hi < x -> number_input lo hi value x = value).
Proof.
  intros Hv. unfold number_input.
  destruct (Z.leb_spec lo x); destruct (Z.leb_spec x hi); cbn [andb]; lia.
Qed.

(** A slice of five from a start inside or past the frame. *)
Lemma iloc_page {A : Type} (df : list A) (start : Z) (i : nat) :
  0 <= start ->
  nth_error (Pandas.iloc df start (start + 5)) i
  = if (i <? 5)%nat then nth_error df (Z.to_nat start + i) else None.
Proof.
  intros Hs. unfold Pandas.iloc, Pandas.slice_index.
  destruct (Z.ltb_spec start 0); [lia|].
  destruct (Z.ltb_spec (start + 5) 0); [lia|].
  rewrite nth_error_firstn, nth_error_skipn.
  set (len := Z.of_nat (List.length df)).
  destruct (Nat.ltb_spec i 5) as [Hi|Hi].
  - destruct (Nat.ltb_spec i (Z.to_nat (Z.min (start + 5) len - Z.min start len))) as [Hk|Hk].
    + f_equal. lia.
    + symmetry. apply nth_error_None. unfold len in *. lia.
  - destruct (Nat.ltb_spec i (Z.to_nat (Z.min (start + 5) len - Z.min start len)));
      [lia|reflexivity].
Qed.

(** C6, as the specification states it, fails: nothing in the code clamps
    the page.  With twelve records the page widget has the bounds 1 and 3;
    page 100 lies outside them, the widget returns its value 1, and the
    page shows records 1 to 5, which is not what page 3 shows, records 11
    and 12. *)
Lemma page_beyond_last_counterexample :
  display_history_list show_all 100 twelve_rows
  = history_rows (map (fun i => sample_row i 1.0 1.0) [1; 2; 3; 4; 5]) 1 5 12
  /\ display_history_list show_all 3 twelve_rows
     = history_rows (map (fun i => sample_row i 1.0 1.0) [11; 12]) 11 12 12
  /\ display_history_list show_all 100 twelve_rows
     <> display_history_list show_all 3 twelve_rows.
Proof.
  split; [reflexivity|]. split; [reflexivity|].
  vm_compute. discriminate.
Qed.

(** C6, amended: the page shown of a filtered collection of [n] records is
    a page [P] within [[1, T]], the bounds the code gives the page widget,
    where [T] is the number of pages, the least integer with [n <= 5 * T];
    [P] is the page entered when that lies within the bounds; and the
    records shown are those at positions [[(P-1)*5, P*5)] of the filtered
    collection, as far as it goes.  The page is not clamped: for a page
    entered outside the bounds the widget returns its value, page 1.  (An
    empty filtered collection has no page: the tab shows its message and no
    record.) *)
Theorem page_is_bounded_slice
  (option_chosen : display_option) (page_entered : Z) (history_df : list row) :
  let filtered_df := filter_history (filter_options option_chosen) history_df in
  let n := Z.of_nat (List.length filtered_df) in
  (filtered_df = [] ->
   display_history_list option_chosen page_entered history_df = no_history_matches)
  /\ (filtered_df <> [] ->
      exists (paginated_df : list row) (P T first_item last_item : Z),
        display_history_list option_chosen page_entered history_df
        = history_rows paginated_df first_item last_item n
        /\ 5 * (T - 1) < n <= 5 * T
        /\ 1 <= P <= T
        /\ (1 <= page_entered <= T -> P = page_entered)
        /\ (page_entered < 1 \/ T < page_entered -> P = 1)
        /\ first_item = (P - 1) * 5 + 1
        /\ last_item = Z.min (P * 5) n
        /\ (forall i : nat,
              nth_error paginated_df i
              = if (i <? 5)%nat
                then nth_error filtered_df (Z.to_nat ((P - 1) * 5) + i)
                else None)).
Proof.
  intros filtered_df n. split.
  - intros E. unfold display_history_list. fold filtered_df. rewrite E. reflexivity.
  - intros Hne.
    assert (Hn : 1 <= n).
    { unfold n. destruct filtered_df; [congruence|]. simpl List.length. lia. }
    pose proof (total_pages_ceil n) as HT.
    assert (H1T : 1 <= 1 <= total_pages n) by lia.
    pose proof (number_input_bounds 1 (total_pages n) 1 page_entered H1T)
      as (Hr & Hin & Hout).
    set (P := number_input 1 (total_pages n) 1 page_entered) in *.
    exists (Pandas.iloc filtered_df ((P - 1) * 5) ((P - 1) * 5 + 5)), P, (total_pages n),
      ((P - 1) * 5 + 1), (Z.min ((P - 1) * 5 + 5) n).
    split.
    + unfold display_history_list. fold filtered_df.
      destruct filtered_df; [congruence|]. reflexivity.
    + split; [exact HT|]. split; [exact Hr|]. split; [exact Hin|]. split; [exact Hout|].
      split; [reflexivity|]. split; [f_equal; lia|].
      intros i. apply iloc_page. lia.
Qed.

(** The example of twelve records, page 3. *)
Lemma page_is_bounded_slice_witness :
  filter_history (filter_options show_all) twelve_rows <> []
  /\ exists (paginated_df : list row) (P T first_item last_item : Z),
       display_history_list show_all 3 twelve_rows
       = history_rows paginated_df first_item last_item 12
       /\ 5 * (T - 1) < 12 <= 5 * T
       /\ 1 <= P <= T
       /\ (1 <= 3 <= T -> P = 3)
       /\ (3 < 1 \/ T < 3 -> P = 1)
       /\ first_item = (P - 1) * 5 + 1
       /\ last_item = Z.min (P * 5) 12
       /\ (forall i : nat,
             nth_error paginated_df i
             = if (i <? 5)%nat
               then nth_error twelve_rows (Z.to_nat ((P - 1) * 5) + i)
               else None).
Proof.
  split.
  - discriminate.
  - apply (proj2 (page_is_bounded_slice show_all 3 twelve_rows)). discriminate.
Defined.

Example twelve_rows_pages :
  display_history_list show_all 1 twelve_rows
  = history_rows (map (fun i => sample_row i 1.0 1.0) [1; 2; 3; 4; 5]) 1 5 12
  /\ display_history_list show_all 2 twelve_rows
     = history_rows (map (fun i => sample_row i 1.0 1.0) [6; 7; 8; 9; 10]) 6 10 12
  /\ display_history_list show_all 3 twelve_rows
     = history_rows (map (fun i => sample_row i 1.0 1.0) [11; 12]) 11 12 12.
Proof. repeat split; reflexivity. Qed.

(** ** Sorting a frame by a float column *)

Section SortValues.

Context {A : Type} (c : A -> float).

Lemma insert_desc_perm (x : A) (l : list A) :
  Permutation (Pandas.insert_desc c x l) (x :: l).
Proof.
  induction l as [|y l IH]; simpl.
  - apply Permutation_refl.
  - destruct (c y <=? c x)%float.
    + apply Permutation_refl.
    + eapply Permutation_trans; [apply perm_skip, IH|apply perm_swap].
Qed.

Lemma insertion_sort_perm (l : list A) :
  Permutation (fold_right (Pandas.insert_desc c) [] l) l.
Proof.
  induction l as [|x l IH]; simpl.
  - apply perm_nil.
  - eapply Permutation_trans; [apply insert_desc_perm|apply perm_skip, IH].
Qed.

Lemma partition_perm (p : A -> bool) (l : list A) :
  Permutation (filter p l ++ filter (fun r => negb (p r)) l) l.
Proof.
  induction l as [|x l IH]; simpl.
  - apply perm_nil.
  - destruct (p x); simpl.
    + apply perm_skip, IH.
    + eapply Permutation_trans; [apply Permutation_sym, Permutation_middle|].
      apply perm_skip, IH.
Qed.

(** Sorting keeps every row of the frame, once each. *)
Lemma sort_values_desc_perm (df : list A) :
  Permutation (Pandas.sort_values_desc c df) df.
Proof.
  unfold Pandas.sort_values_desc.
  eapply Permutation_trans; [|apply (partition_perm (fun r => Pandas.notna (c r)))].
  apply Permutation_app.
  - apply insertion_sort_perm.
  - erewrite filter_ext; [apply Permutation_refl|].
    intros r. unfold Pandas.notna. rewrite negb_involutive. reflexivity.
Qed.

Lemma insert_desc_sorted (x : A) (l : list A) :
  PrimFloat.is_nan (c x) = false ->
  Forall (fun r => PrimFloat.is_nan (c r) = false) l ->
  StronglySorted (Pandas.key_ge c) l ->
  StronglySorted (Pandas.key_ge c) (Pandas.insert_desc c x l).
Proof.
  intros Hx Hl Hs. induction l as [|y l IH]; simpl.
  - repeat constructor.
  - inversion Hl as [|? ? Hy Hl']; subst.
    inversion Hs as [|? ? Hs' Hall]; subst.
    destruct (c y <=? c x)%float eqn:E.
    + constructor; [exact Hs|]. constructor; [exact E|].
      eapply Forall_impl; [|exact Hall]. intros z Hz. unfold Pandas.key_ge in *.
      eapply FloatOrder.leb_trans; eassumption.
    + constructor; [apply IH; assumption|].
      eapply Permutation_Forall; [apply Permutation_sym, insert_desc_perm|].
      constructor; [|exact Hall]. unfold Pandas.key_ge.
      destruct (FloatOrder.leb_total (c x) (c y) Hx Hy) as [H|H]; [exact H|congruence].
Qed.

Lemma insertion_sort_sorted (l : list A) :
  Forall (fun r => PrimFloat.is_nan (c r) = false) l ->
  StronglySorted (Pandas.key_ge c) (fold_right (Pandas.insert_desc c) [] l).
Proof.
  induction 1 as [|x l Hx Hl IH]; simpl.
  - constructor.
  - apply insert_desc_sorted; [exact Hx| |exact IH].
    eapply Permutation_Forall; [apply Permutation_sym, insertion_sort_perm|exact Hl].
Qed.

Lemma sorted_then_missing (l1 l2 : list A) :
  StronglySorted (Pandas.key_ge c) l1 ->
  Forall (fun r => Pandas.isna (c r) = true) l2 ->
  StronglySorted (Pandas.ranks_no_lower c) (l1 ++ l2).
Proof.
  intros Hs Hm. induction Hs as [|x l1 Hs IH Hall]; simpl.
  - induction Hm as [|y l2 Hy Hm IH]; constructor; [exact IH|].
    eapply Forall_impl; [|exact Hm]. intros z Hz. left. exact Hz.
  - constructor; [exact IH|]. apply Forall_app. split.
    + eapply Forall_impl; [|exact Hall]. intros z Hz. right. exact Hz.
    + eapply Forall_impl; [|exact Hm]. intros z Hz. left. exact Hz.
Qed.

(** The sorted frame is in descending order of its key, missing keys last:
    each row ranks no lower than every row after it. *)
Lemma sort_values_desc_sorted (df : list A) :
  StronglySorted (Pandas.ranks_no_lower c) (Pandas.sort_values_desc c df).
Proof.
  unfold Pandas.sort_values_desc. apply sorted_then_missing.
  - apply insertion_sort_sorted. apply Forall_forall. intros r Hr.
    apply filter_In in Hr. destruct Hr as [_ Hr]. apply notna_true. exact Hr.
  - apply Forall_forall. intros r Hr.
    apply filter_In in Hr. tauto.
Qed.

End SortValues.

Lemma StronglySorted_app_inv {A : Type} (R : A -> A -> Prop) (l1 l2 : list A) :
  StronglySorted R (l1 ++ l2) ->
  StronglySorted R l1 /\ forall x y, In x l1 -> In y l2 -> R x y.
Proof.
  induction l1 as [|a l1 IH]; simpl; intros H.
  - split; [constructor|]. intros x y [].
  - inversion H as [|? ? Hs Hall]; subst. destruct (IH Hs) as [S1 S2].
    apply Forall_app in Hall. destruct Hall as [Ha1 Ha2]. split.
    + constructor; assumption.
    + intros x y [<-|Hx] Hy.
      * rewrite Forall_forall in Ha2. apply Ha2. exact Hy.
      * apply S2; assumption.
Qed.

(** ** The efficiency score and its ranking *)

Lemma fillna_present (v x : float) : Pandas.notna x = true -> Pandas.fillna v x = x.
Proof.
  unfold Pandas.notna, Pandas.fillna. intros H. apply negb_true_iff in H.
  rewrite H. reflexivity.
Qed.

Lemma fillna_missing (v x : float) : Pandas.isna x = true -> Pandas.fillna v x = v.
Proof. unfold Pandas.fillna. intros ->. reflexivity. Qed.

Lemma any_notna_In {A : Type} (c : A -> float) (df : list A) (r : A) :
  In r df -> Pandas.notna (c r) = true -> Pandas.any_notna c df = true.
Proof.
  intros Hin Hr. unfold Pandas.any_notna. apply existsb_exists. eauto.
Qed.

(** C3: for a record whose response time is present the efficiency score is
    [accuracyScore / (responseTimeSeconds + 0.1)], in binary64 arithmetic,
    and the frame that holds such a record gets its scores computed; the
    score is exactly [10.0] for accuracy [1.0] at latency [0.0] and exactly
    [0.25] for accuracy [0.5] at latency [1.9]; and the divisor is never
    zero for a latency that is missing, zero or any other non-negative
    float: at zero latency it is [0.1]. *)
Theorem efficiency_score_formula :
  (forall r : row,
      Pandas.notna (response_time r) = true ->
      efficiency_score r = (is_correct r / (response_time r + 0.1))%float)
  /\ (forall (analysis_df : list row) (r : row),
        In r analysis_df ->
        Pandas.notna (response_time r) = true ->
        exists ranking, efficiency_ranking analysis_df = Some ranking)
  /\ (forall i : Z, efficiency_score (sample_row i 1.0 0.0) = 10.0%float)
  /\ (forall i : Z, efficiency_score (sample_row i 0.5 1.9) = 0.25%float)
  /\ (0.0 + 0.1 = 0.1)%float
  /\ (forall r : row,
        Pandas.isna (response_time r) = true \/ (0 <=? response_time r)%float = true ->
        (Pandas.fillna 0 (response_time r) + 0.1 =? 0)%float = false).
Proof.
  split; [|split; [|split; [|split; [|split]]]].
  - intros r H. unfold efficiency_score. rewrite fillna_present by exact H. reflexivity.
  - intros analysis_df r Hin H. unfold efficiency_ranking.
    rewrite (any_notna_In response_time analysis_df r Hin H). eauto.
  - intros i. reflexivity.
  - intros i. reflexivity.
  - reflexivity.
  - intros r [H|H].
    + rewrite fillna_missing by exact H. reflexivity.
    + rewrite fillna_present.
      * apply FloatRounding.add_tenth_nonzero. exact H.
      * apply notna_true. apply (FloatOrder.leb_not_nan _ _ H).
Qed.

(** C2, as the specification states it, fails on two counts.  A record
    without a response time is not excluded but ranked, scored at latency
    zero, here at the top with [1.0 / (0 + 0.1) = 10.0].  And the code sorts
    by the score alone: two records of equal score stay in the order of the
    frame, the larger id first here, where the specification puts the
    smaller id first. *)
Lemma efficiency_ranking_counterexample :
  efficiency_ranking [sample_row 1 1.0 nan; sample_row 2 1.0 1.0]
  = Some [(1, 10.0%float); (2, (1.0 / (1.0 + 0.1))%float)]
  /\ Spec.efficiency_ranking [sample_row 1 1.0 nan; sample_row 2 1.0 1.0]
     = [(2, (1.0 / (1.0 + 0.1))%float)]
  /\ efficiency_ranking [sample_row 1 1.0 nan; sample_row 2 1.0 1.0]
     <> Some (Spec.efficiency_ranking [sample_row 1 1.0 nan; sample_row 2 1.0 1.0])
  /\ efficiency_ranking [sample_row 2 1.0 1.0; sample_row 1 1.0 1.0]
     = Some [(2, (1.0 / (1.0 + 0.1))%float); (1, (1.0 / (1.0 + 0.1))%float)]
  /\ Spec.efficiency_ranking [sample_row 2 1.0 1.0; sample_row 1 1.0 1.0]
     = [(1, (1.0 / (1.0 + 0.1))%float); (2, (1.0 / (1.0 + 0.1))%float)]
  /\ efficiency_ranking [sample_row 2 1.0 1.0; sample_row 1 1.0 1.0]
     <> Some (Spec.efficiency_ranking [sample_row 2 1.0 1.0; sample_row 1 1.0 1.0]).
Proof.
  split; [reflexivity|]. split; [reflexivity|]. split; [vm_compute; discriminate|].
  split; [reflexivity|]. split; [reflexivity|].
  vm_compute. discriminate.
Qed.

(** C2, amended: when some feedback-bearing record has a response time, the
    ranking is the first ten records of the whole feedback-bearing
    collection put in descending order of efficiency score, each record
    ranking no lower than every record after it; all records take part, a
    record without a response time being scored at latency zero,
    [accuracyScore / (0 + 0.1)]. *)
Theorem efficiency_ranking_first_ten (analysis_df : list row) :
  Pandas.any_notna response_time analysis_df = true ->
  exists sorted : list row,
    Permutation sorted analysis_df
    /\ StronglySorted (Pandas.ranks_no_lower efficiency_score) sorted
    /\ efficiency_ranking analysis_df
       = Some (map (fun r => (id r, efficiency_score r)) (firstn 10 sorted))
    /\ (forall r : row,
          In r analysis_df ->
          In r sorted
          /\ (Pandas.isna (response_time r) = true ->
              efficiency_score r = (is_correct r / (0 + 0.1))%float)
          /\ (Pandas.notna (response_time r) = true ->
              efficiency_score r = (is_correct r / (response_time r + 0.1))%float)).
Proof.
  intros Hany. exists (Pandas.sort_values_desc efficiency_score analysis_df).
  pose proof (sort_values_desc_perm efficiency_score analysis_df) as HP.
  split; [exact HP|]. split; [apply sort_values_desc_sorted|]. split.
  - unfold efficiency_ranking. rewrite Hany. reflexivity.
  - intros r Hin. split; [|split].
    + eapply Permutation_in; [apply Permutation_sym, HP|exact Hin].
    + intros H. unfold efficiency_score. rewrite fillna_missing by exact H. reflexivity.
    + intros H. unfold efficiency_score. rewrite fillna_present by exact H. reflexivity.
Qed.

Lemma efficiency_ranking_first_ten_witness :
  Pandas.any_notna response_time [sample_row 1 1.0 nan; sample_row 2 1.0 1.0] = true
  /\ exists sorted : list row,
       Permutation sorted [sample_row 1 1.0 nan; sample_row 2 1.0 1.0]
       /\ StronglySorted (Pandas.ranks_no_lower efficiency_score) sorted
       /\ efficiency_ranking [sample_row 1 1.0 nan; sample_row 2 1.0 1.0]
          = Some (map (fun r => (id r, efficiency_score r)) (firstn 10 sorted))
       /\ (forall r : row,
             In r [sample_row 1 1.0 nan; sample_row 2 1.0 1.0] ->
             In r sorted
             /\ (Pandas.isna (response_time r) = true ->
                 efficiency_score r = (is_correct r / (0 + 0.1))%float)
             /\ (Pandas.notna (response_time r) = true ->
                 efficiency_score r = (is_correct r / (response_time r + 0.1))%float)).
Proof.
  split.
  - reflexivity.
  - apply (efficiency_ranking_first_ten [sample_row 1 1.0 nan; sample_row 2 1.0 1.0]).
    reflexivity.
Defined.

(** Without any response time there is no ranking. *)
Lemma efficiency_ranking_unavailable (analysis_df : list row) :
  Pandas.any_notna response_time analysis_df = false ->
  efficiency_ranking analysis_df = None.
Proof. unfold efficiency_ranking. intros ->. reflexivity. Qed.

(** The example of the specification: three records, ranked. *)
Example efficiency_ranking_three :
  efficiency_ranking [sample_row 1 1.0 1.0; sample_row 2 0.0 0.5; sample_row 3 0.5 2.0]
  = Some [(1, (1.0 / (1.0 + 0.1))%float); (3, (0.5 / (2.0 + 0.1))%float); (2, 0%float)].
Proof. reflexivity. Qed.

(** ** The five views of the metrics analysis *)

Lemma present_labels_app (s s' : list (option string)) :
  Pandas.present_labels (s ++ s') = Pandas.present_labels s ++ Pandas.present_labels s'.
Proof.
  induction s as [|[l|] s IH]; simpl; [reflexivity| |exact IH].
  rewrite IH. reflexivity.
Qed.

Lemma insert_count_not_nil (x : string * nat) (l : list (string * nat)) :
  Pandas.insert_count x l <> [].
Proof.
  destruct l as [|y l]; simpl; [discriminate|].
  destruct (snd y <=? snd x)%nat; discriminate.
Qed.

(** The distribution is empty exactly when no record has a label. *)
Lemma value_counts_nil (s : list (option string)) :
  Pandas.value_counts s = [] <-> Pandas.present_labels s = [].
Proof.
  unfold Pandas.value_counts.
  destruct (Pandas.present_labels s) as [|l ls]; simpl; [tauto|].
  split; [|discriminate]. intros H. exfalso. revert H. apply insert_count_not_nil.
Qed.

Lemma present_labels_nil (s : list (option string)) :
  Pandas.present_labels s = [] <-> Forall (fun l => l = None) s.
Proof.
  induction s as [|[l|] s IH]; simpl.
  - split; auto.
  - split; [discriminate|]. intros H. inversion H. discriminate.
  - rewrite IH. split; [auto|]. intros H. inversion H. assumption.
Qed.

Lemma dropna_without (c : row -> float) (before after : list row) (r : row) :
  Pandas.isna (c r) = true ->
  Pandas.dropna c (before ++ r :: after) = Pandas.dropna c (before ++ after).
Proof.
  intros H. unfold Pandas.dropna, Pandas.notna.
  rewrite !filter_app. simpl. rewrite H. reflexivity.
Qed.

Lemma dropna_present (c : row -> float) (df : list row) :
  Forall (fun r => Pandas.notna (c r) = true) (Pandas.dropna c df).
Proof.
  apply Forall_forall. intros r H. apply filter_In in H. tauto.
Qed.

(** A score that equals none of the keys has no label. *)
Lemma Accuracy_outside (r : row) :
  (is_correct r =? 1.0)%float = false ->
  (is_correct r =? 0.5)%float = false ->
  (is_correct r =? 0.0)%float = false ->
  Accuracy r = None.
Proof.
  intros H1 H2 H3. unfold Accuracy, accuracy_labels. simpl.
  rewrite (FloatOrder.eqb_sym 1 (is_correct r)), H1.
  rewrite (FloatOrder.eqb_sym 0.5 (is_correct r)), H2.
  rewrite (FloatOrder.eqb_sym 0 (is_correct r)), H3.
  reflexivity.
Qed.

Lemma accuracy_counts_without (before after : list row) (r : row) :
  Accuracy r = None ->
  accuracy_counts (before ++ r :: after) = accuracy_counts (before ++ after).
Proof.
  intros H. unfold accuracy_counts, Pandas.value_counts.
  rewrite !map_app, !present_labels_app. simpl. rewrite H. reflexivity.
Qed.

Lemma has_label_unlabelled (k : string) (r : row) :
  Accuracy r = None -> has_label k r = false.
Proof. unfold has_label. intros ->. reflexivity. Qed.

Section AnalysisFacts.

Variable series_describe : list float -> describe_stats.
Variable series_mean : list float -> float.
Variable metric_chosen : nat.

Lemma accuracy_groups_without (columns : list string) (before after : list row) (r : row) :
  Accuracy r = None ->
  accuracy_groups series_mean columns (before ++ r :: after)
  = accuracy_groups series_mean columns (before ++ after).
Proof.
  intros H. unfold accuracy_groups, group_keys.
  assert (E : forall k, existsb (has_label k) (before ++ r :: after)
                        = existsb (has_label k) (before ++ after)).
  { intros k. rewrite !existsb_app. simpl.
    rewrite (has_label_unlabelled k r H). reflexivity. }
  rewrite (filter_ext _ _ E). apply map_ext. intros k.
  f_equal. apply map_ext. intros c0. f_equal. f_equal.
  rewrite !filter_app. simpl. rewrite (has_label_unlabelled k r H). reflexivity.
Qed.

(** C5: the analysis computes its five views from the records whose accuracy
    score is present and from nothing else: a record without feedback,
    wherever it stands in the history, changes no call of the analysis. *)
Theorem analysis_ignores_missing_feedback (before after : list row) (r : row) :
  Pandas.isna (is_correct r) = true ->
  display_metrics_analysis series_describe series_mean metric_chosen (before ++ r :: after)
  = display_metrics_analysis series_describe series_mean metric_chosen (before ++ after)
  /\ Pandas.dropna is_correct (before ++ r :: after)
     = Pandas.dropna is_correct (before ++ after)
  /\ ~ In r (Pandas.dropna is_correct (before ++ r :: after))
  /\ (forall history_df : list row,
        Forall (fun r' => Pandas.notna (is_correct r') = true)
          (Pandas.dropna is_correct history_df)
        /\ display_metrics_analysis series_describe series_mean metric_chosen history_df
           = display_metrics_analysis series_describe series_mean metric_chosen
               (Pandas.dropna is_correct history_df)).
Proof.
  intros H. split; [|split; [|split]].
  - unfold display_metrics_analysis. rewrite (dropna_without is_correct before after r H).
    reflexivity.
  - apply dropna_without. exact H.
  - intros Hin. apply filter_In in Hin. destruct Hin as [_ Hin].
    unfold Pandas.notna in Hin. rewrite H in Hin. discriminate.
  - intros history_df. split; [apply dropna_present|].
    unfold display_metrics_analysis.
    replace (Pandas.dropna is_correct (Pandas.dropna is_correct history_df))
      with (Pandas.dropna is_correct history_df); [reflexivity|].
    unfold Pandas.dropna. induction history_df as [|x l IH]; simpl; [reflexivity|].
    destruct (Pandas.notna (is_correct x)) eqn:E; simpl; rewrite ?E; congruence.
Qed.

(** C8: over an empty feedback-bearing collection the accuracy distribution
    is empty and the analysis reports it with one warning, a message and no
    failure; and whenever there is a feedback-bearing record the analysis is
    eleven calls, the title and then, for each of the five views in turn,
    its heading and one call of its own: its chart or table over the
    feedback-bearing records, or the message that it has nothing to show,
    whatever the other views have.  An empty distribution is the message
    "No accuracy data available." followed by the other four views, and the
    distribution is empty exactly when no record has an accuracy label. *)
Theorem empty_view_is_reported (history_df : list row) :
  accuracy_counts [] = []
  /\ (Pandas.dropna is_correct history_df = [] ->
      display_metrics_analysis series_describe series_mean metric_chosen history_df
      = [ st_write "#### Metrics Analysis";
          st_warning "No evaluation data available for analysis." ])
  /\ (forall analysis_df : list row,
        accuracy_counts analysis_df = []
        <-> Forall (fun r => Accuracy r = None) analysis_df)
  /\ (forall analysis_df : list row,
        analysis_df = Pandas.dropna is_correct history_df ->
        analysis_df <> [] ->
        display_metrics_analysis series_describe series_mean metric_chosen history_df
        = [ st_write "#### Metrics Analysis";
            st_write "##### Distribution of accuracy";
            match accuracy_counts analysis_df with
            | [] => st_info "No accuracy data available."
            | count :: counts => st_bar_chart_counts (count :: counts)
            end;
            st_write "##### Relationship between response time and other metrics";
            match valid_columns metric_options analysis_df with
            | [] => st_info "No metric data available for comparison with response time."
            | m :: ms =>
                match chart_data (selectbox (m :: ms) metric_chosen) analysis_df with
                | [] =>
                    st_info ("No valid data for selected metric ("
                             ++ selectbox (m :: ms) metric_chosen
                             ++ ") and response time.")
                | point :: points =>
                    st_scatter_chart (selectbox (m :: ms) metric_chosen) (point :: points)
                end
            end;
            st_write "##### Overall metrics statistics";
            match valid_columns stats_cols analysis_df with
            | [] => st_info "No metrics data available to compute statistics."
            | c :: cs =>
                st_dataframe_describe
                  (map (fun c' => (c', series_describe (map (cell c') analysis_df)))
                     (c :: cs))
            end;
            st_write "##### Average scores by accuracy level";
            match valid_columns stats_cols analysis_df with
            | [] =>
                st_info "No data available to calculate average scores by accuracy level."
            | c :: cs =>
                st_dataframe_means (c :: cs)
                  (accuracy_groups series_mean (c :: cs) analysis_df)
            end;
            st_write "##### Efficiency score (accuracy / (response time + 0.1))";
            match efficiency_ranking analysis_df with
            | None =>
                st_info "No response time data available to calculate efficiency score."
            | Some [] => st_info "No efficiency score data available."
            | Some (score :: scores) => st_bar_chart_scores (score :: scores)
            end ]
        /\ (accuracy_counts analysis_df = [] ->
            display_metrics_analysis series_describe series_mean metric_chosen history_df
            = [ st_write "#### Metrics Analysis";
                st_write "##### Distribution of accuracy";
                st_info "No accuracy data available." ]
              ++ scatter_view metric_chosen analysis_df
              ++ statistics_view series_describe analysis_df
              ++ groups_view series_mean analysis_df
              ++ efficiency_view analysis_df)).
Proof.
  split; [reflexivity|]. split; [|split].
  - intros E. unfold display_metrics_analysis. rewrite E. reflexivity.
  - intros analysis_df. unfold accuracy_counts.
    rewrite value_counts_nil, present_labels_nil, Forall_map. reflexivity.
  - intros analysis_df E Hne. unfold display_metrics_analysis. rewrite <- E.
    destruct analysis_df as [|r0 rest]; [congruence|].
    set (df := r0 :: rest).
    unfold distribution_view, scatter_view, statistics_view, groups_view, efficiency_view.
    split.
    + destruct (accuracy_counts df) as [|count counts];
        destruct (valid_columns metric_options df) as [|m ms];
        destruct (valid_columns stats_cols df) as [|c cs];
        destruct (efficiency_ranking df) as [[|score scores]|];
        try reflexivity;
        destruct (chart_data (selectbox (m :: ms) metric_chosen) df) as [|point points];
        reflexivity.
    + intros C. rewrite C. reflexivity.
Qed.

(** C10: a record with feedback whose accuracy score equals none of [1.0],
    [0.5] and [0.0] has no accuracy label, so it adds nothing to the
    accuracy distribution and belongs to no group of the grouped averages;
    it still takes part in the efficiency ranking, which is computed since
    its response time is present, with score
    [accuracyScore / (responseTimeSeconds + 0.1)]: the chart shows the first
    ten of all the feedback-bearing records, this one among them, put in
    descending order of score (missing scores last), so the record is
    charted whenever the frame has at most ten records, and otherwise unless
    ten records rank no lower than it.  (The groups are compared for any one
    list of columns: which columns the page shows is decided over all
    feedback-bearing records, this one included.) *)
Theorem unlabelled_score_is_ranked (before after : list row) (r : row) :
  Pandas.notna (is_correct r) = true ->
  (is_correct r =? 1.0)%float = false ->
  (is_correct r =? 0.5)%float = false ->
  (is_correct r =? 0.0)%float = false ->
  Pandas.notna (response_time r) = true ->
  Accuracy r = None
  /\ In r (Pandas.dropna is_correct (before ++ r :: after))
  /\ accuracy_counts (before ++ r :: after) = accuracy_counts (before ++ after)
  /\ (forall columns : list string,
        accuracy_groups series_mean columns (before ++ r :: after)
        = accuracy_groups series_mean columns (before ++ after))
  /\ (forall k : string, ~ In r (filter (has_label k) (before ++ r :: after)))
  /\ efficiency_score r = (is_correct r / (response_time r + 0.1))%float
  /\ exists sorted : list row,
       Permutation sorted (before ++ r :: after)
       /\ StronglySorted (Pandas.ranks_no_lower efficiency_score) sorted
       /\ In r sorted
       /\ efficiency_ranking (before ++ r :: after)
          = Some (map (fun r' => (id r', efficiency_score r')) (firstn 10 sorted))
       /\ (In r (firstn 10 sorted)
           \/ (List.length (firstn 10 sorted) = 10%nat
               /\ forall r', In r' (firstn 10 sorted) ->
                             Pandas.ranks_no_lower efficiency_score r' r))
       /\ (In r (firstn 10 sorted) ->
           exists ranking,
             efficiency_ranking (before ++ r :: after) = Some ranking
             /\ In (id r, (is_correct r / (response_time r + 0.1))%float) ranking)
       /\ ((List.length (before ++ r :: after) <= 10)%nat ->
           exists ranking,
             efficiency_ranking (before ++ r :: after) = Some ranking
             /\ In (id r, (is_correct r / (response_time r + 0.1))%float) ranking).
Proof.
  intros Hfb H1 H2 H3 Ht.
  pose proof (Accuracy_outside r H1 H2 H3) as HA.
  assert (HS : efficiency_score r = (is_correct r / (response_time r + 0.1))%float).
  { unfold efficiency_score. rewrite fillna_present by exact Ht. reflexivity. }
  split; [exact HA|]. split; [|split; [|split; [|split; [|split]]]].
  - apply filter_In. split; [apply in_elt|exact Hfb].
  - apply accuracy_counts_without. exact HA.
  - intros columns. apply accuracy_groups_without. exact HA.
  - intros k Hin. apply filter_In in Hin. destruct Hin as [_ Hin].
    rewrite (has_label_unlabelled k r HA) in Hin. discriminate.
  - exact HS.
  - set (df := before ++ r :: after).
    assert (Hin : In r df) by apply in_elt.
    pose proof (sort_values_desc_perm efficiency_score df) as HP.
    pose proof (sort_values_desc_sorted efficiency_score df) as HO.
    assert (Hsorted : In r (Pandas.sort_values_desc efficiency_score df)).
    { eapply Permutation_in; [apply Permutation_sym, HP|exact Hin]. }
    assert (HR : efficiency_ranking df
                 = Some (map (fun r' => (id r', efficiency_score r'))
                           (firstn 10 (Pandas.sort_values_desc efficiency_score df)))).
    { unfold efficiency_ranking. rewrite (any_notna_In response_time df r Hin Ht).
      reflexivity. }
    set (sorted := Pandas.sort_values_desc efficiency_score df) in *.
    assert (Hcharted : In r (firstn 10 sorted) ->
                       exists ranking,
                         efficiency_ranking df = Some ranking
                         /\ In (id r, (is_correct r / (response_time r + 0.1))%float)
                              ranking).
    { intros Hr. eexists. split; [exact HR|]. rewrite <- HS.
      apply (in_map (fun r' => (id r', efficiency_score r'))). exact Hr. }
    exists sorted.
    split; [exact HP|]. split; [exact HO|]. split; [exact Hsorted|].
    split; [exact HR|]. split; [|split; [exact Hcharted|]].
    + rewrite <- (firstn_skipn 10 sorted) in Hsorted, HO.
      apply in_app_or in Hsorted. destruct Hsorted as [Hr|Hr]; [left; exact Hr|].
      right. split.
      * apply firstn_length_le.
        destruct (Nat.le_gt_cases 10 (List.length sorted)) as [L|L]; [exact L|].
        rewrite skipn_all2 in Hr by lia. destruct Hr.
      * intros r' Hr'.
        exact (proj2 (StronglySorted_app_inv _ _ _ HO) r' r Hr' Hr).
    + intros Hlen. apply Hcharted.
      rewrite firstn_all2 by (rewrite (Permutation_length HP); exact Hlen).
      exact Hsorted.
Qed.

End AnalysisFacts.

Lemma analysis_ignores_missing_feedback_witness :
  Pandas.isna (is_correct (sample_row 2 nan 1.0)) = true
  /\ display_metrics_analysis (fun _ => mkDescribe 0 0 0 0 0 0 0 0) (fun _ => 0%float) 0
       ([sample_row 1 1.0 1.0] ++ sample_row 2 nan 1.0 :: [sample_row 3 0.5 2.0])
     = display_metrics_analysis (fun _ => mkDescribe 0 0 0 0 0 0 0 0) (fun _ => 0%float) 0
         ([sample_row 1 1.0 1.0] ++ [sample_row 3 0.5 2.0]).
Proof.
  split.
  - reflexivity.
  - apply (analysis_ignores_missing_feedback
             (fun _ => mkDescribe 0 0 0 0 0 0 0 0) (fun _ => 0%float) 0
             [sample_row 1 1.0 1.0] [sample_row 3 0.5 2.0] (sample_row 2 nan 1.0)).
    reflexivity.
Defined.

Lemma unlabelled_score_is_ranked_witness :
  Pandas.notna (is_correct (sample_row 2 2.0 0.9)) = true
  /\ (is_correct (sample_row 2 2.0 0.9) =? 1.0)%float = false
  /\ (is_correct (sample_row 2 2.0 0.9) =? 0.5)%float = false
  /\ (is_correct (sample_row 2 2.0 0.9) =? 0.0)%float = false
  /\ Pandas.notna (response_time (sample_row 2 2.0 0.9)) = true
  /\ Accuracy (sample_row 2 2.0 0.9) = None
  /\ accuracy_counts ([sample_row 1 1.0 1.0] ++ sample_row 2 2.0 0.9 :: [])
     = accuracy_counts ([sample_row 1 1.0 1.0] ++ [])
  /\ efficiency_score (sample_row 2 2.0 0.9) = 2.0%float.
Proof.
  pose proof (unlabelled_score_is_ranked (fun _ => 0%float)
                [sample_row 1 1.0 1.0] [] (sample_row 2 2.0 0.9)
                ltac:(reflexivity) ltac:(reflexivity) ltac:(reflexivity)
                ltac:(reflexivity) ltac:(reflexivity)) as (HA & _ & HC & _ & _ & HS & _).
  do 5 (split; [reflexivity|]). split; [exact HA|]. split; [exact HC|].
  rewrite HS. reflexivity.
Defined.

(** Eleven records, the last one with the score [3.0], which has no label:
    it has the best efficiency score, [6.0], and is the first of the ten
    records charted. *)
Example unlabelled_best_score_charted_first :
  Accuracy (sample_row 13 3.0 0.4) = None
  /\ option_map (firstn 1)
       (efficiency_ranking (firstn 10 twelve_rows ++ [sample_row 13 3.0 0.4]))
     = Some [(13, 6.0%float)]
  /\ option_map (@List.length (Z * float))
       (efficiency_ranking (firstn 10 twelve_rows ++ [sample_row 13 3.0 0.4]))
     = Some 10%nat.
Proof. repeat split; vm_compute; reflexivity. Qed.

(** A frame whose only record has the score [3.0]: no label, so the
    distribution is empty and says so, and the other views follow. *)
Example empty_distribution_other_views :
  display_metrics_analysis (fun _ => mkDescribe 0 0 0 0 0 0 0 0) (fun _ => 0%float) 0
    [sample_row 4 3.0 0.4]
  = [ st_write "#### Metrics Analysis";
      st_write "##### Distribution of accuracy";
      st_info "No accuracy data available.";
      st_write "##### Relationship between response time and other metrics";
      st_info "No metric data available for comparison with response time.";
      st_write "##### Overall metrics statistics";
      st_dataframe_describe [("response_time"%string, mkDescribe 0 0 0 0 0 0 0 0)];
      st_write "##### Average scores by accuracy level";
      st_dataframe_means ["response_time"%string] [];
      st_write "##### Efficiency score (accuracy / (response time + 0.1))";
      st_bar_chart_scores [(4, 6.0%float)] ].
Proof. reflexivity. Qed.

(** * Further properties of the pages *)

(** ** The chat page as a sequence of runs *)

Lemma truthy_false (s : string) : truthy s = false <-> s = EmptyString.
Proof.
  unfold truthy. rewrite negb_false_iff. apply String.eqb_eq.
Qed.

Lemma is_click_refl (c : click) : is_click c c = true.
Proof. destruct c; reflexivity. Qed.

Lemma is_click_false (c d : click) : is_click c d = false <-> c <> d.
Proof.
  split.
  - intros H E. apply is_click_true in E. congruence.
  - intros H. destruct (is_click c d) eqn:E; [|reflexivity].
    apply is_click_true in E. contradiction.
Qed.

(** The run that follows a send with a question. *)
Lemma display_chat_page_send
  (generate_response : string -> string * float)
  (s : Session.session_state) (q label correct comment : string) :
  q <> EmptyString ->
  display_chat_page generate_response s (mkWidgets q send_question label correct comment)
  = ({| Session.current_question := Some q;
        Session.current_answer := Some (fst (generate_response q));
        Session.response_time := Some (snd (generate_response q));
        Session.feedback_given := Some false |},
     [ st_subheader "Enter your question";
       st_spinner "The model is generating a response";
       generate_response_call q;
       st_rerun ]).
Proof.
  intros Hq. unfold display_chat_page. simpl.
  apply truthy_true in Hq. rewrite Hq.
  destruct (generate_response q) as [a t]. reflexivity.
Qed.

(** X1: asking and then rating saves the exchange as it happened.  From any
    session, a run that sends a non-empty question whose generated answer is
    not empty shows the heading of the question and the spinner, generates
    and restarts; the
    run that then submits the feedback form shows the heading, the response
    with its time and the heading of the form, saves one record (the question
    sent, the answer and the response time the generation returned, the
    label with its comment, the reference answer and the score of the
    label), reports it and restarts; and the session then holds the exchange
    with the feedback flag set. *)
Theorem ask_then_rate_saves_exchange
  (generate_response : string -> string * float) (s0 : Session.session_state)
  (q label0 correct0 comment0 text label correct comment : string) :
  q <> EmptyString ->
  fst (generate_response q) <> EmptyString ->
  let asked :=
    display_chat_page generate_response s0
      (mkWidgets q send_question label0 correct0 comment0) in
  let rated :=
    display_chat_page generate_response (fst asked)
      (mkWidgets text submit_feedback label correct comment) in
  snd asked
  = [ st_subheader "Enter your question";
      st_spinner "The model is generating a response";
      generate_response_call q;
      st_rerun ]
  /\ snd rated
     = [ st_subheader "Enter your question";
         st_subheader "Response:";
         st_markdown (fst (generate_response q));
         st_info_response_time (snd (generate_response q));
         st_subheader "Feedback";
         save_to_db_call
           {| saved_question := q;
              saved_answer := fst (generate_response q);
              saved_feedback_text := combined_feedback label comment;
              saved_correct_answer := correct;
              saved_is_correct := feedback_score label;
              saved_response_time := snd (generate_response q) |};
         st_success "Feedback has been saved!";
         st_rerun ]
  /\ fst rated
     = {| Session.current_question := Some q;
          Session.current_answer := Some (fst (generate_response q));
          Session.response_time := Some (snd (generate_response q));
          Session.feedback_given := Some true |}.
Proof.
  intros Hq Ha asked rated. unfold rated, asked.
  rewrite (display_chat_page_send generate_response s0 q label0 correct0 comment0 Hq).
  cbn [fst snd]. split; [reflexivity|].
  rewrite display_chat_page_no_send by reflexivity.
  cbn [Session.initialise Session.get Session.current_question Session.current_answer
       Session.feedback_given Session.response_time].
  apply truthy_true in Hq, Ha. rewrite Hq, Ha. cbn [andb negb].
  unfold display_feedback_form, response_display. cbn [clicked is_click].
  split; reflexivity.
Qed.

Lemma ask_then_rate_saves_exchange_witness :
  "What is Rocq?"%string <> EmptyString
  /\ fst ((fun _ : string => ("A proof assistant."%string, 1.5%float)) "What is Rocq?"%string)
     <> EmptyString
  /\ snd (display_chat_page (fun _ => ("A proof assistant."%string, 1.5%float))
            (fst (display_chat_page (fun _ => ("A proof assistant."%string, 1.5%float))
                    fresh_session
                    (mkWidgets "What is Rocq?" send_question "Accurate" EmptyString EmptyString)))
            (mkWidgets "What is Rocq?" submit_feedback "Partially accurate" "An ITP."
               "too short"))
     = [ st_subheader "Enter your question";
         st_subheader "Response:";
         st_markdown "A proof assistant.";
         st_info_response_time 1.5%float;
         st_subheader "Feedback";
         save_to_db_call
           {| saved_question := "What is Rocq?";
              saved_answer := "A proof assistant.";
              saved_feedback_text := "Partially accurate: too short";
              saved_correct_answer := "An ITP.";
              saved_is_correct := 0.5%float;
              saved_response_time := 1.5%float |};
         st_success "Feedback has been saved!";
         st_rerun ].
Proof.
  split; [discriminate|]. split; [discriminate|].
  exact (proj1 (proj2 (ask_then_rate_saves_exchange
                         (fun _ => ("A proof assistant."%string, 1.5%float)) fresh_session
                         "What is Rocq?" "Accurate" EmptyString EmptyString
                         "What is Rocq?" "Partially accurate" "An ITP." "too short"
                         ltac:(discriminate) ltac:(discriminate)))).
Defined.

(** The six ways a run of the chat page can end, each with what leads to
    it: a question is sent; the session holds no exchange; the exchange on
    display is open and the form is not submitted, or it is; the exchange is
    rated and the next question is not asked for, or it is. *)
Lemma display_chat_page_cases
  (generate_response : string -> string * float)
  (s : Session.session_state) (w : chat_widgets) :
  (clicked w = send_question /\ question_input w <> EmptyString
   /\ display_chat_page generate_response s w
      = ({| Session.current_question := Some (question_input w);
            Session.current_answer := Some (fst (generate_response (question_input w)));
            Session.response_time := Some (snd (generate_response (question_input w)));
            Session.feedback_given := Some false |},
         [ st_subheader "Enter your question";
           st_spinner "The model is generating a response";
           generate_response_call (question_input w);
           st_rerun ]))
  \/ (truthy (Session.get (Session.current_question s) EmptyString)
      && truthy (Session.get (Session.current_answer s) EmptyString) = false
      /\ display_chat_page generate_response s w
         = (Session.initialise s, [st_subheader "Enter your question"]))
  \/ (truthy (Session.get (Session.current_question s) EmptyString)
      && truthy (Session.get (Session.current_answer s) EmptyString) = true
      /\ Session.get (Session.feedback_given s) false = false
      /\ clicked w <> submit_feedback
      /\ display_chat_page generate_response s w
         = (Session.initialise s,
            [ st_subheader "Enter your question";
              st_subheader "Response:";
              st_markdown (Session.get (Session.current_answer s) EmptyString);
              st_info_response_time (Session.get (Session.response_time s) 0%float);
              st_subheader "Feedback" ]))
  \/ (truthy (Session.get (Session.current_question s) EmptyString)
      && truthy (Session.get (Session.current_answer s) EmptyString) = true
      /\ Session.get (Session.feedback_given s) false = false
      /\ clicked w = submit_feedback
      /\ display_chat_page generate_response s w
         = ({| Session.current_question :=
                 Some (Session.get (Session.current_question s) EmptyString);
               Session.current_answer :=
                 Some (Session.get (Session.current_answer s) EmptyString);
               Session.response_time :=
                 Some (Session.get (Session.response_time s) 0%float);
               Session.feedback_given := Some true |},
            [ st_subheader "Enter your question";
              st_subheader "Response:";
              st_markdown (Session.get (Session.current_answer s) EmptyString);
              st_info_response_time (Session.get (Session.response_time s) 0%float);
              st_subheader "Feedback";
              save_to_db_call
                {| saved_question := Session.get (Session.current_question s) EmptyString;
                   saved_answer := Session.get (Session.current_answer s) EmptyString;
                   saved_feedback_text :=
                     combined_feedback (feedback_radio w) (feedback_comment_input w);
                   saved_correct_answer := correct_answer_input w;
                   saved_is_correct := feedback_score (feedback_radio w);
                   saved_response_time :=
                     Session.get (Session.response_time s) 0%float |};
              st_success "Feedback has been saved!";
              st_rerun ]))
  \/ (truthy (Session.get (Session.current_question s) EmptyString)
      && truthy (Session.get (Session.current_answer s) EmptyString) = true
      /\ Session.get (Session.feedback_given s) false = true
      /\ clicked w <> next_question
      /\ display_chat_page generate_response s w
         = (Session.initialise s,
            [ st_subheader "Enter your question";
              st_subheader "Response:";
              st_markdown (Session.get (Session.current_answer s) EmptyString);
              st_info_response_time (Session.get (Session.response_time s) 0%float) ]))
  \/ (truthy (Session.get (Session.current_question s) EmptyString)
      && truthy (Session.get (Session.current_answer s) EmptyString) = true
      /\ Session.get (Session.feedback_given s) false = true
      /\ clicked w = next_question
      /\ display_chat_page generate_response s w
         = (Session.initialise fresh_session,
            [ st_subheader "Enter your question";
              st_subheader "Response:";
              st_markdown (Session.get (Session.current_answer s) EmptyString);
              st_info_response_time (Session.get (Session.response_time s) 0%float);
              st_rerun ])).
Proof.
  destruct (is_click (clicked w) send_question && truthy (question_input w)) eqn:Hsend.
  - left. apply andb_true_iff in Hsend. destruct Hsend as [Hc Ht].
    apply is_click_true in Hc. split; [exact Hc|].
    split; [apply truthy_true; exact Ht|].
    unfold display_chat_page. rewrite Hc, Ht. cbn [is_click andb].
    destruct (generate_response (question_input w)) as [a t]. reflexivity.
  - right. rewrite display_chat_page_no_send by exact Hsend. cbv zeta.
    destruct s as [q a t g]. cbn [Session.initialise Session.get Session.current_question
      Session.current_answer Session.feedback_given Session.response_time].
    destruct (truthy (Session.get q EmptyString) && truthy (Session.get a EmptyString));
      [right|left; split; reflexivity].
    unfold response_display, display_feedback_form.
    cbn [Session.initialise Session.get Session.current_question
      Session.current_answer Session.feedback_given Session.response_time].
    destruct (Session.get g false) eqn:Hg; cbn [negb].
    + right. right. destruct (is_click (clicked w) next_question) eqn:Hc.
      * right. apply is_click_true in Hc. repeat split; trivial.
      * left. apply is_click_false in Hc. repeat split; trivial.
    + destruct (is_click (clicked w) submit_feedback) eqn:Hc.
      * right. left. apply is_click_true in Hc. repeat split; trivial.
      * left. apply is_click_false in Hc. repeat split; trivial.
Qed.

(** X2: a run saves feedback exactly when the feedback button was pressed
    while the session holds a non-empty question and a non-empty answer that
    has no feedback yet; the record saved is then the session's question,
    answer and response time with the form's label, comment and reference
    answer. *)
Theorem save_exactly_when_rating_open_answer
  (generate_response : string -> string * float)
  (s : Session.session_state) (w : chat_widgets) (args : saved_feedback) :
  In (save_to_db_call args) (snd (display_chat_page generate_response s w))
  <-> clicked w = submit_feedback
      /\ Session.get (Session.current_question s) EmptyString <> EmptyString
      /\ Session.get (Session.current_answer s) EmptyString <> EmptyString
      /\ Session.get (Session.feedback_given s) false = false
      /\ args
         = {| saved_question := Session.get (Session.current_question s) EmptyString;
              saved_answer := Session.get (Session.current_answer s) EmptyString;
              saved_feedback_text :=
                combined_feedback (feedback_radio w) (feedback_comment_input w);
              saved_correct_answer := correct_answer_input w;
              saved_is_correct := feedback_score (feedback_radio w);
              saved_response_time := Session.get (Session.response_time s) 0%float |}.
Proof.
  destruct (display_chat_page_cases generate_response s w)
    as [(C & _ & E)|[(H & E)|[(H & G & C & E)|[(H & G & C & E)|[(H & G & C & E)
                                                                |(H & G & C & E)]]]]];
    rewrite E; cbn [snd]; split.
  - intros K. repeat (destruct K as [K|K]; [discriminate|]). destruct K.
  - intros (C' & _). congruence.
  - intros K. repeat (destruct K as [K|K]; [discriminate|]). destruct K.
  - intros (_ & Nq & Na & _). apply truthy_true in Nq, Na.
    rewrite Nq, Na in H. discriminate.
  - intros K. repeat (destruct K as [K|K]; [discriminate|]). destruct K.
  - intros (C' & _). contradiction.
  - intros K. do 5 (destruct K as [K|K]; [discriminate|]).
    destruct K as [K|K].
    + injection K as <-. apply andb_true_iff in H. destruct H as [Hq Ha].
      apply truthy_true in Hq, Ha. repeat split; assumption.
    + repeat (destruct K as [K|K]; [discriminate|]). destruct K.
  - intros (_ & _ & _ & _ & ->). do 5 right. left. reflexivity.
  - intros K. repeat (destruct K as [K|K]; [discriminate|]). destruct K.
  - intros (_ & _ & _ & G' & _). congruence.
  - intros K. repeat (destruct K as [K|K]; [discriminate|]). destruct K.
  - intros (_ & _ & _ & G' & _). congruence.
Qed.

(** X3: an answer is rated at most once.  After a run that saved feedback,
    no run saves again, whatever is clicked or typed, until a new question
    has been sent: the run that follows a save never saves. *)
Theorem no_second_save
  (generate_response : string -> string * float)
  (s : Session.session_state) (w w' : chat_widgets) (args args' : saved_feedback) :
  In (save_to_db_call args) (snd (display_chat_page generate_response s w)) ->
  Session.feedback_given (fst (display_chat_page generate_response s w)) = Some true
  /\ ~ In (save_to_db_call args')
         (snd (display_chat_page generate_response
                 (fst (display_chat_page generate_response s w)) w')).
Proof.
  intros Hsave.
  assert (Hflag : Session.feedback_given (fst (display_chat_page generate_response s w))
                  = Some true).
  { destruct (display_chat_page_cases generate_response s w)
      as [(_ & _ & E)|[(_ & E)|[(_ & _ & _ & E)|[(_ & _ & _ & E)|[(_ & _ & _ & E)
                                                                  |(_ & _ & _ & E)]]]]];
      rewrite E in Hsave |- *; cbn [fst snd] in *; try reflexivity;
      repeat (destruct Hsave as [Hsave|Hsave]; [discriminate|]); destruct Hsave. }
  split; [exact Hflag|].
  set (s1 := fst (display_chat_page generate_response s w)) in *.
  destruct (display_chat_page_cases generate_response s1 w')
    as [(_ & _ & E)|[(_ & E)|[(_ & G & _ & E)|[(_ & G & _ & E)|[(_ & _ & _ & E)
                                                                |(_ & _ & _ & E)]]]]];
    rewrite E; cbn [snd]; try (rewrite Hflag in G; discriminate);
    intros K; repeat (destruct K as [K|K]; [discriminate|]); destruct K.
Qed.

Lemma no_second_save_witness :
  In (save_to_db_call (mkSaved "q" "a" "Accurate" EmptyString 1.0%float 2.0%float))
     (snd (display_chat_page (fun _ => ("a"%string, 2.0%float))
             (Session.mkSession (Some "q"%string) (Some "a"%string) (Some 2.0%float)
                (Some false))
             (mkWidgets "q" submit_feedback "Accurate" EmptyString EmptyString)))
  /\ ~ In (save_to_db_call (mkSaved "q" "a" "Inaccurate" EmptyString 0.0%float 2.0%float))
          (snd (display_chat_page (fun _ => ("a"%string, 2.0%float))
                  (fst (display_chat_page (fun _ => ("a"%string, 2.0%float))
                          (Session.mkSession (Some "q"%string) (Some "a"%string)
                             (Some 2.0%float) (Some false))
                          (mkWidgets "q" submit_feedback "Accurate" EmptyString EmptyString)))
                  (mkWidgets "q" submit_feedback "Inaccurate" EmptyString EmptyString))).
Proof.
  assert (H : In (save_to_db_call (mkSaved "q" "a" "Accurate" EmptyString 1.0%float 2.0%float))
                (snd (display_chat_page (fun _ => ("a"%string, 2.0%float))
                        (Session.mkSession (Some "q"%string) (Some "a"%string)
                           (Some 2.0%float) (Some false))
                        (mkWidgets "q" submit_feedback "Accurate" EmptyString EmptyString))))
    by (do 5 right; left; reflexivity).
  split; [exact H|].
  exact (proj2 (no_second_save (fun _ => ("a"%string, 2.0%float)) _ _
                  (mkWidgets "q" submit_feedback "Inaccurate" EmptyString EmptyString)
                  _ (mkSaved "q" "a" "Inaccurate" EmptyString 0.0%float 2.0%float) H)).
Defined.

(** X4: after any run all four session keys are present, and a run either
    only renders (the heading of the question, then, for a session that
    holds a question and an answer, the response with its time and, while it
    has no feedback, the heading of the feedback form) and leaves the session
    values as they were, or ends with [st.rerun()]: the page never changes
    the session, generates or saves without restarting the script. *)
Theorem run_restarts_or_changes_nothing
  (generate_response : string -> string * float)
  (s : Session.session_state) (w : chat_widgets) :
  (exists q a t g,
      fst (display_chat_page generate_response s w)
      = {| Session.current_question := Some q; Session.current_answer := Some a;
           Session.response_time := Some t; Session.feedback_given := Some g |})
  /\ ((snd (display_chat_page generate_response s w)
       = st_subheader "Enter your question"
         :: (if truthy (Session.get (Session.current_question s) EmptyString)
                && truthy (Session.get (Session.current_answer s) EmptyString)
             then [ st_subheader "Response:";
                    st_markdown (Session.get (Session.current_answer s) EmptyString);
                    st_info_response_time
                      (Session.get (Session.response_time s) 0%float) ]
                  ++ (if Session.get (Session.feedback_given s) false
                      then []
                      else [st_subheader "Feedback"])
             else [])
       /\ Session.values (fst (display_chat_page generate_response s w))
          = Session.values s)
      \/ exists calls,
           snd (display_chat_page generate_response s w) = calls ++ [st_rerun]).
Proof.
  destruct (display_chat_page_cases generate_response s w)
    as [(_ & _ & E)|[(H & E)|[(H & G & _ & E)|[(_ & _ & _ & E)|[(H & G & _ & E)
                                                                |(_ & _ & _ & E)]]]]];
    rewrite E; cbn [fst snd]; (split; [do 4 eexists; reflexivity|]).
  - right. eexists [_; _; _]. reflexivity.
  - left. rewrite H. split; [reflexivity|apply initialise_values].
  - left. rewrite H, G. split; [reflexivity|apply initialise_values].
  - right. eexists [_; _; _; _; _; _; _]. reflexivity.
  - left. rewrite H, G. split; [reflexivity|apply initialise_values].
  - right. eexists [_; _; _; _]. reflexivity.
Qed.

(** The session after a question was asked and its answer rated. *)
Lemma rated_session_after_ask
  (generate_response : string -> string * float) (s0 : Session.session_state)
  (q label0 correct0 comment0 text label correct comment : string) :
  q <> EmptyString ->
  fst (generate_response q) <> EmptyString ->
  fst (display_chat_page generate_response
         (fst (display_chat_page generate_response s0
                 (mkWidgets q send_question label0 correct0 comment0)))
         (mkWidgets text submit_feedback label correct comment))
  = {| Session.current_question := Some q;
       Session.current_answer := Some (fst (generate_response q));
       Session.response_time := Some (snd (generate_response q));
       Session.feedback_given := Some true |}.
Proof.
  intros Hq Ha.
  rewrite (display_chat_page_send generate_response s0 q label0 correct0 comment0 Hq).
  cbn [fst]. rewrite display_chat_page_no_send by reflexivity.
  cbn [Session.initialise Session.get Session.current_question Session.current_answer
       Session.feedback_given Session.response_time].
  apply truthy_true in Hq, Ha. rewrite Hq, Ha. reflexivity.
Qed.

(** X5: a whole exchange brings the page back to its start.  Sending a
    non-empty question with a non-empty answer, submitting feedback and
    pressing "Next question" leaves the session as a never-used page
    initialises it, whatever it held before; that run still shows the
    heading of the question and the response with its time before it
    restarts.  The next run, if no question is sent, shows the heading of
    the question and nothing else: no response, no feedback form, no
    generation, no save, no restart. *)
Theorem exchange_returns_to_start
  (generate_response : string -> string * float) (s0 : Session.session_state)
  (q : string) (w1 w2 w3 w4 : chat_widgets) :
  q <> EmptyString ->
  fst (generate_response q) <> EmptyString ->
  question_input w1 = q -> clicked w1 = send_question ->
  clicked w2 = submit_feedback ->
  clicked w3 = next_question ->
  clicked w4 <> send_question ->
  let s1 := fst (display_chat_page generate_response s0 w1) in
  let s2 := fst (display_chat_page generate_response s1 w2) in
  display_chat_page generate_response s2 w3
  = (Session.initialise fresh_session,
     [ st_subheader "Enter your question";
       st_subheader "Response:";
       st_markdown (fst (generate_response q));
       st_info_response_time (snd (generate_response q));
       st_rerun ])
  /\ display_chat_page generate_response (Session.initialise fresh_session) w4
     = (Session.initialise fresh_session, [st_subheader "Enter your question"]).
Proof.
  intros Hq Ha E1 C1 C2 C3 C4 s1 s2. subst s2 s1.
  destruct w1 as [q1 c1 l1 r1 k1], w2 as [q2 c2 l2 r2 k2], w3 as [q3 c3 l3 r3 k3].
  cbn [question_input clicked] in *. subst q1 c1 c2 c3.
  pose proof (rated_session_after_ask generate_response s0 q l1 r1 k1 q2 l2 r2 k2 Hq Ha)
    as E.
  rewrite E. split.
  - rewrite display_chat_page_no_send by reflexivity.
    cbn [Session.initialise Session.get Session.current_question Session.current_answer
         Session.feedback_given Session.response_time].
    apply truthy_true in Hq, Ha. rewrite Hq, Ha. reflexivity.
  - rewrite display_chat_page_no_send.
    + reflexivity.
    + destruct (clicked w4); try reflexivity. congruence.
Qed.

Lemma exchange_returns_to_start_witness :
  "q"%string <> EmptyString
  /\ display_chat_page (fun _ => ("a"%string, 1.0%float))
       (fst (display_chat_page (fun _ => ("a"%string, 1.0%float))
               (fst (display_chat_page (fun _ => ("a"%string, 1.0%float)) fresh_session
                       (mkWidgets "q" send_question "Accurate" EmptyString EmptyString)))
               (mkWidgets "q" submit_feedback "Accurate" EmptyString EmptyString)))
       (mkWidgets "q" next_question "Accurate" EmptyString EmptyString)
     = (Session.initialise fresh_session,
        [ st_subheader "Enter your question";
          st_subheader "Response:";
          st_markdown "a";
          st_info_response_time 1.0%float;
          st_rerun ]).
Proof.
  split; [discriminate|].
  exact (proj1 (exchange_returns_to_start (fun _ => ("a"%string, 1.0%float)) fresh_session "q"
                  (mkWidgets "q" send_question "Accurate" EmptyString EmptyString)
                  (mkWidgets "q" submit_feedback "Accurate" EmptyString EmptyString)
                  (mkWidgets "q" next_question "Accurate" EmptyString EmptyString)
                  (mkWidgets "q" no_click "Accurate" EmptyString EmptyString)
                  ltac:(discriminate) ltac:(discriminate) eq_refl eq_refl eq_refl eq_refl
                  ltac:(discriminate))).
Defined.

(** ** The feedback label, its score and its stored text *)

Lemma string_length_append (s t : string) :
  String.length (s ++ t) = (String.length s + String.length t)%nat.
Proof. induction s as [|c s IH]; simpl; [reflexivity|]. rewrite IH. reflexivity. Qed.

Lemma prefix_append (s t : string) : String.prefix s (s ++ t) = true.
Proof.
  induction s as [|c s IH]; simpl.
  - destruct t; reflexivity.
  - destruct (Ascii.ascii_dec c c); [exact IH|congruence].
Qed.

(** X6: the stored feedback text always starts with the label, it is the
    label alone exactly when the comment is empty, and otherwise it is two
    characters and the comment longer than the label. *)
Theorem stored_feedback_starts_with_label (label comment : string) :
  String.prefix label (combined_feedback label comment) = true
  /\ (combined_feedback label comment = label <-> comment = EmptyString)
  /\ String.length (combined_feedback label comment)
     = (if string_dec comment EmptyString
        then String.length label
        else String.length label + 2 + String.length comment)%nat.
Proof.
  unfold combined_feedback. destruct (string_dec comment EmptyString) as [->|N].
  - cbn [truthy String.eqb negb]. split; [|split; [tauto|reflexivity]].
    replace label with (label ++ EmptyString)%string at 2; [apply prefix_append|].
    clear. induction label as [|c s IH]; simpl; [reflexivity|]. rewrite IH. reflexivity.
  - pose proof N as T. apply truthy_true in T. rewrite T.
    assert (L : String.length (label ++ ": " ++ comment)
                = (String.length label + 2 + String.length comment)%nat).
    { rewrite !string_length_append. simpl. lia. }
    split; [apply prefix_append|]. split; [|exact L].
    split; [|congruence]. intros E. rewrite E in L. lia.
Qed.

(** X7: a saved score always has an accuracy label, and for the three
    labels of the form it is the label that was chosen: a record whose score
    is the score of the label chosen is labelled "Accurate" for "Accurate",
    "Partially accurate" for "Partially accurate" and "Inaccurate" for any
    other label, and the history filter of that class shows it. *)
Theorem saved_score_keeps_its_label (label : string) (r : row) (history_df : list row) :
  is_correct r = feedback_score label ->
  In r history_df ->
  Accuracy r
  = Some (if (label =? "Accurate")%string then "Accurate"
          else if (label =? "Partially accurate")%string then "Partially accurate"
          else "Inaccurate")%string
  /\ (label = "Accurate"%string \/ label = "Partially accurate"%string
      \/ label = "Inaccurate"%string -> Accuracy r = Some label)
  /\ In r (filter_history
             (filter_options
                (if (label =? "Accurate")%string then accurate_only
                 else if (label =? "Partially accurate")%string
                      then partially_accurate_only
                      else inaccurate_only))
             history_df).
Proof.
  intros E Hin. unfold Accuracy. rewrite E. unfold feedback_score.
  split; [|split].
  - destruct (label =? "Accurate")%string; [reflexivity|].
    destruct (label =? "Partially accurate")%string; reflexivity.
  - intros [->|[->| ->]]; reflexivity.
  - unfold filter_history.
    destruct (label =? "Accurate")%string eqn:E1;
      [|destruct (label =? "Partially accurate")%string eqn:E2];
      cbn [filter_options]; apply filter_In; (split; [exact Hin|]);
      rewrite E; unfold feedback_score; rewrite E1, ?E2; reflexivity.
Qed.

Lemma saved_score_keeps_its_label_witness :
  is_correct (sample_row 7 0.5 1.0) = feedback_score "Partially accurate"
  /\ In (sample_row 7 0.5 1.0) [sample_row 6 1.0 1.0; sample_row 7 0.5 1.0]
  /\ Accuracy (sample_row 7 0.5 1.0) = Some "Partially accurate"%string
  /\ In (sample_row 7 0.5 1.0)
       (filter_history (filter_options partially_accurate_only)
          [sample_row 6 1.0 1.0; sample_row 7 0.5 1.0]).
Proof.
  pose proof (saved_score_keeps_its_label "Partially accurate" (sample_row 7 0.5 1.0)
                [sample_row 6 1.0 1.0; sample_row 7 0.5 1.0] eq_refl
                ltac:(right; left; reflexivity)) as (H1 & _ & H3).
  split; [reflexivity|]. split; [right; left; reflexivity|].
  split; [exact H1|exact H3].
Defined.

(** ** Exact equality of binary64 scores *)

Module FloatEquality.

Lemma SFcompare_Eq_finite (x : spec_float) (s : bool) (m : positive) (e : Z) :
  SFcompare x (S754_finite s m e) = Some Eq -> x = S754_finite s m e.
Proof.
  destruct x as [sx|sx| |sx mx ex]; simpl; try discriminate.
  - destruct s; discriminate.
  - destruct sx; discriminate.
  - change (Pos.compare_cont Eq mx m) with (Pos.compare mx m).
    destruct sx, s; try discriminate;
      destruct (Z.compare_spec ex e); try discriminate;
      destruct (Pos.compare_spec mx m); try discriminate; intros _; congruence.
Qed.

(** A float that compares equal to a finite non-zero float is that float. *)
Lemma eqb_finite (x c : float) (s : bool) (m : positive) (e : Z) :
  Prim2SF c = S754_finite s m e -> (x =? c)%float = true -> x = c.
Proof.
  intros Hc H. rewrite FloatAxioms.eqb_spec, Hc in H. unfold SFeqb in H.
  destruct (SFcompare (Prim2SF x) (S754_finite s m e)) as [[ | | ]|] eqn:E;
    try discriminate.
  apply SFcompare_Eq_finite in E. apply Prim2SF_inj. congruence.
Qed.

Lemma eqb_one (x : float) : (x =? 1.0)%float = true -> x = 1.0%float.
Proof. apply (eqb_finite x 1.0 false 4503599627370496 (-52)). reflexivity. Qed.

Lemma eqb_half (x : float) : (x =? 0.5)%float = true -> x = 0.5%float.
Proof. apply (eqb_finite x 0.5 false 4503599627370496 (-53)). reflexivity. Qed.

Lemma eqb_zero (x : float) :
  (x =? 0.0)%float = true -> x = 0.0%float \/ x = (-0.0)%float.
Proof.
  intros H. rewrite FloatAxioms.eqb_spec in H.
  change (Prim2SF 0) with (S754_zero false) in H. unfold SFeqb in H.
  destruct (Prim2SF x) as [s|s| |s m e] eqn:E; simpl in H; try discriminate.
  - destruct s; [right|left]; apply Prim2SF_inj; rewrite E; reflexivity.
  - destruct s; discriminate.
  - destruct s; discriminate.
Qed.

(** The three canonical scores exclude one another. *)
Lemma canonical_scores_exclusive (x : float) :
  ((x =? 1.0)%float = true -> (x =? 0.5)%float = false /\ (x =? 0.0)%float = false)
  /\ ((x =? 0.5)%float = true -> (x =? 1.0)%float = false /\ (x =? 0.0)%float = false)
  /\ ((x =? 0.0)%float = true -> (x =? 1.0)%float = false /\ (x =? 0.5)%float = false).
Proof.
  split; [|split]; intros H.
  - apply eqb_one in H. subst x. split; reflexivity.
  - apply eqb_half in H. subst x. split; reflexivity.
  - apply eqb_zero in H. destruct H; subst x; split; reflexivity.
Qed.

End FloatEquality.

(** ** The history filter and the accuracy classes *)

(** The test of each filter option is the test of an accuracy label. *)
Lemma filter_test_is_label (r : row) :
  Pandas.notna (is_correct r) && (is_correct r =? 1.0)%float = has_label "Accurate" r
  /\ Pandas.notna (is_correct r) && (is_correct r =? 0.5)%float
     = has_label "Partially accurate" r
  /\ Pandas.notna (is_correct r) && (is_correct r =? 0.0)%float = has_label "Inaccurate" r.
Proof.
  rewrite !present_and_equal. unfold has_label, Accuracy, accuracy_labels.
  cbn [Pandas.dict_get].
  rewrite (FloatOrder.eqb_sym 1 (is_correct r)), (FloatOrder.eqb_sym 0.5 (is_correct r)),
    (FloatOrder.eqb_sym 0 (is_correct r)).
  destruct (FloatEquality.canonical_scores_exclusive (is_correct r)) as (H1 & H2 & H3).
  destruct (is_correct r =? 1)%float eqn:E1.
  - destruct (H1 eq_refl) as [-> ->]. repeat split.
  - destruct (is_correct r =? 0.5)%float eqn:E2.
    + destruct (H2 eq_refl) as [_ ->]. repeat split.
    + destruct (is_correct r =? 0)%float; repeat split.
Qed.

(** The label of a record is one of the three, or missing. *)
Lemma Accuracy_values (r : row) :
  Accuracy r = Some "Accurate"%string
  \/ Accuracy r = Some "Partially accurate"%string
  \/ Accuracy r = Some "Inaccurate"%string
  \/ Accuracy r = None.
Proof.
  unfold Accuracy, accuracy_labels. cbn [Pandas.dict_get].
  destruct (1 =? is_correct r)%float; [auto|].
  destruct (0.5 =? is_correct r)%float; [auto|].
  destruct (0 =? is_correct r)%float; auto.
Qed.

(** X8: the history filter and the analysis agree on the classes: "Accurate
    only" shows exactly the records the analysis labels "Accurate", and so
    for "Partially accurate" and "Inaccurate", in the order of the frame; a
    record shown under one of the three options has exactly that option's
    score. *)
Theorem filter_shows_the_labelled_class (history_df : list row) :
  filter_history (filter_options accurate_only) history_df
  = filter (has_label "Accurate") history_df
  /\ filter_history (filter_options partially_accurate_only) history_df
     = filter (has_label "Partially accurate") history_df
  /\ filter_history (filter_options inaccurate_only) history_df
     = filter (has_label "Inaccurate") history_df
  /\ (forall r, In r (filter_history (filter_options accurate_only) history_df) ->
                is_correct r = 1.0%float)
  /\ (forall r, In r (filter_history (filter_options partially_accurate_only) history_df) ->
                is_correct r = 0.5%float)
  /\ (forall r, In r (filter_history (filter_options inaccurate_only) history_df) ->
                is_correct r = 0.0%float \/ is_correct r = (-0.0)%float).
Proof.
  unfold filter_history. cbn [filter_options].
  split; [|split; [|split; [|split; [|split]]]].
  - apply filter_ext. intros r. apply (filter_test_is_label r).
  - apply filter_ext. intros r. apply (filter_test_is_label r).
  - apply filter_ext. intros r. apply (filter_test_is_label r).
  - intros r H. apply filter_In in H. destruct H as [_ H].
    apply andb_true_iff in H. apply FloatEquality.eqb_one. tauto.
  - intros r H. apply filter_In in H. destruct H as [_ H].
    apply andb_true_iff in H. apply FloatEquality.eqb_half. tauto.
  - intros r H. apply filter_In in H. destruct H as [_ H].
    apply andb_true_iff in H. apply FloatEquality.eqb_zero. tauto.
Qed.

(** X9: the three filtered views never overlap and miss only the records
    without a label: the sizes of the three filtered collections and the
    number of records with no accuracy label (no feedback, or a score
    outside the three) add up to the size of the history. *)
Theorem filters_partition_history (history_df : list row) :
  (List.length history_df
   = List.length (filter_history (filter_options accurate_only) history_df)
     + List.length (filter_history (filter_options partially_accurate_only) history_df)
     + List.length (filter_history (filter_options inaccurate_only) history_df)
     + List.length (filter (fun r => match Accuracy r with
                                     | None => true
                                     | Some _ => false
                                     end) history_df))%nat
  /\ (forall r,
        ~ (In r (filter_history (filter_options accurate_only) history_df)
           /\ In r (filter_history (filter_options partially_accurate_only) history_df))
        /\ ~ (In r (filter_history (filter_options accurate_only) history_df)
              /\ In r (filter_history (filter_options inaccurate_only) history_df))
        /\ ~ (In r (filter_history (filter_options partially_accurate_only) history_df)
              /\ In r (filter_history (filter_options inaccurate_only) history_df))).
Proof.
  split.
  - unfold filter_history. cbn [filter_options].
    induction history_df as [|r df IH]; [reflexivity|].
    cbn [filter]. destruct (filter_test_is_label r) as (-> & -> & ->).
    unfold has_label.
    destruct (Accuracy_values r) as [E|[E|[E|E]]]; rewrite E; simpl; lia.
  - intros r. unfold filter_history. cbn [filter_options].
    rewrite !filter_In, !andb_true_iff.
    destruct (FloatEquality.canonical_scores_exclusive (is_correct r)) as (H1 & H2 & H3).
    split; [|split]; intros [[_ [_ A]] [_ [_ B]]].
    + destruct (H1 A). congruence.
    + destruct (H1 A). congruence.
    + destruct (H2 A). congruence.
Qed.

(** ** The pages of the history list *)

(** A slice of five, for any start that is not negative. *)
Lemma iloc_five {A : Type} (df : list A) (start : Z) :
  0 <= start ->
  Pandas.iloc df start (start + 5) = firstn 5 (skipn (Z.to_nat start) df).
Proof.
  intros Hs. unfold Pandas.iloc, Pandas.slice_index.
  destruct (Z.ltb_spec start 0); [lia|].
  destruct (Z.ltb_spec (start + 5) 0); [lia|].
  set (len := Z.of_nat (List.length df)).
  destruct (Z.le_gt_cases len start) as [L|G].
  - rewrite (skipn_all2 df) by (unfold len in L; lia).
    rewrite (skipn_all2 df) by (unfold len in L; lia).
    rewrite !firstn_nil. reflexivity.
  - replace (Z.to_nat (Z.min start len)) with (Z.to_nat start) by lia.
    destruct (Z.le_gt_cases (start + 5) len) as [L5|G5].
    + f_equal. lia.
    + assert (Hlen : List.length (skipn (Z.to_nat start) df)
                     = Z.to_nat (Z.min (start + 5) len - Z.min start len)).
      { rewrite length_skipn. unfold len in *. lia. }
      rewrite <- Hlen, firstn_all, firstn_all2; [reflexivity|]. lia.
Qed.

(** Cutting a list in fives and gluing the pieces gives the list back. *)
Lemma chunks_concat {A : Type} (pages : nat) (l : list A) :
  (List.length l <= 5 * pages)%nat ->
  flat_map (fun k => firstn 5 (skipn (5 * k) l)) (seq 0 pages) = l.
Proof.
  revert l. induction pages as [|pages IH]; intros l Hl.
  - destruct l; [reflexivity|simpl in Hl; lia].
  - cbn [seq flat_map]. rewrite <- seq_shift, flat_map_concat_map, map_map.
    rewrite <- flat_map_concat_map.
    rewrite (flat_map_ext _ (fun k => firstn 5 (skipn (5 * k) (skipn 5 l)))).
    + rewrite IH by (rewrite length_skipn; lia).
      change (5 * 0)%nat with 0%nat. rewrite skipn_0. apply firstn_skipn.
    + intros k. rewrite skipn_skipn. do 2 f_equal. lia.
Qed.

(** The history list on a non-empty selection, page by page. *)
Lemma display_history_list_page
  (option_chosen : display_option) (page_entered : Z) (history_df : list row) :
  let filtered_df := filter_history (filter_options option_chosen) history_df in
  let n := Z.of_nat (List.length filtered_df) in
  let P := number_input 1 (total_pages n) 1 page_entered in
  filtered_df <> [] ->
  display_history_list option_chosen page_entered history_df
  = history_rows (firstn 5 (skipn (Z.to_nat ((P - 1) * 5)) filtered_df))
      ((P - 1) * 5 + 1) (Z.min ((P - 1) * 5 + 5) n) n
  /\ 1 <= P <= total_pages n
  /\ (P - 1) * 5 < n.
Proof.
  intros filtered_df n P Hne.
  assert (Hn : 1 <= n).
  { unfold n. destruct filtered_df; [congruence|]. simpl List.length. lia. }
  pose proof (total_pages_ceil n) as HT.
  pose proof (number_input_bounds 1 (total_pages n) 1 page_entered ltac:(lia)) as (Hr & _).
  fold P in Hr. split; [|split; [exact Hr|lia]].
  rewrite <- (iloc_five filtered_df ((P - 1) * 5)) by lia.
  unfold display_history_list. fold filtered_df.
  destruct filtered_df; [congruence|]. reflexivity.
Qed.

(** X10: the pages cover the filtered collection once and in order: the
    rows of pages 1 to the last page, one after the other, are the filtered
    collection itself, so every matching record is on exactly one page. *)
Theorem pages_cover_filtered_history
  (option_chosen : display_option) (history_df : list row) :
  flat_map
    (fun p => page_rows (display_history_list option_chosen (Z.of_nat p) history_df))
    (seq 1 (Z.to_nat
              (total_pages
                 (Z.of_nat (List.length
                              (filter_history (filter_options option_chosen) history_df))))))
  = filter_history (filter_options option_chosen) history_df.
Proof.
  set (filtered_df := filter_history (filter_options option_chosen) history_df).
  assert (C : filtered_df = [] \/ filtered_df <> [])
    by (destruct filtered_df; [left; reflexivity|right; discriminate]).
  destruct C as [E|Hne]; [rewrite E; reflexivity|].
  set (n := Z.of_nat (List.length filtered_df)).
  pose proof (total_pages_ceil n) as HT.
  transitivity (flat_map (fun k => firstn 5 (skipn (5 * k) filtered_df))
                  (seq 0 (Z.to_nat (total_pages n)))).
  - rewrite <- seq_shift, !flat_map_concat_map, map_map. f_equal.
    apply map_ext_in. intros k Hk. apply in_seq in Hk.
    destruct (display_history_list_page option_chosen (Z.of_nat (S k)) history_df Hne)
      as (D & _). fold filtered_df in D. fold n in D. rewrite D. cbn [page_rows].
    destruct (number_input_bounds 1 (total_pages n) 1 (Z.of_nat (S k)) ltac:(lia))
      as (_ & Hin & _).
    rewrite Hin by lia. do 2 f_equal. lia.
  - apply chunks_concat. unfold n in *. lia.
Qed.

(** X11: the caption describes the page shown.  Whenever rows are shown,
    there are between one and five of them, they are consecutive records of
    the filtered collection starting at the caption's first item, the
    caption's last item is the position of the last row shown, and its
    total is the size of the filtered collection. *)
Theorem caption_matches_rows
  (option_chosen : display_option) (page_entered : Z) (history_df : list row)
  (paginated_df : list row) (first_item last_item total_items : Z) :
  display_history_list option_chosen page_entered history_df
  = history_rows paginated_df first_item last_item total_items ->
  let filtered_df := filter_history (filter_options option_chosen) history_df in
  total_items = Z.of_nat (List.length filtered_df)
  /\ (1 <= List.length paginated_df <= 5)%nat
  /\ 1 <= first_item <= last_item
  /\ last_item <= total_items
  /\ last_item - first_item + 1 = Z.of_nat (List.length paginated_df)
  /\ (first_item - 1) mod 5 = 0
  /\ paginated_df
     = firstn (List.length paginated_df) (skipn (Z.to_nat (first_item - 1)) filtered_df).
Proof.
  intros D filtered_df.
  assert (Hne : filtered_df <> []).
  { intros E. unfold display_history_list in D. fold filtered_df in D.
    rewrite E in D. discriminate. }
  destruct (display_history_list_page option_chosen page_entered history_df Hne)
    as (D' & HP & Hlt). fold filtered_df in D', HP, Hlt.
  set (n := Z.of_nat (List.length filtered_df)) in *.
  set (P := number_input 1 (total_pages n) 1 page_entered) in *.
  assert (Hlen : List.length (firstn 5 (skipn (Z.to_nat ((P - 1) * 5)) filtered_df))
                 = Nat.min 5 (List.length filtered_df - Z.to_nat ((P - 1) * 5))).
  { rewrite length_firstn, length_skipn. reflexivity. }
  assert (Hpage : firstn 5 (skipn (Z.to_nat ((P - 1) * 5)) filtered_df)
                  = firstn (Nat.min 5 (List.length filtered_df - Z.to_nat ((P - 1) * 5)))
                      (skipn (Z.to_nat ((P - 1) * 5)) filtered_df)).
  { rewrite <- (length_skipn (Z.to_nat ((P - 1) * 5)) filtered_df).
    generalize (skipn (Z.to_nat ((P - 1) * 5)) filtered_df). intros l.
    destruct (Nat.le_gt_cases 5 (List.length l)) as [L|G].
    - rewrite Nat.min_l by exact L. reflexivity.
    - rewrite Nat.min_r by lia. rewrite firstn_all. apply firstn_all2. lia. }
  remember (firstn 5 (skipn (Z.to_nat ((P - 1) * 5)) filtered_df)) as page eqn:Epage.
  rewrite D' in D. injection D as <- <- <- <-.
  split; [reflexivity|]. rewrite Hlen. unfold n in *.
  split; [lia|]. split; [lia|]. split; [lia|]. split; [lia|]. split.
  - replace ((P - 1) * 5 + 1 - 1) with ((P - 1) * 5) by lia. apply Z.mod_mul. lia.
  - replace ((P - 1) * 5 + 1 - 1) with ((P - 1) * 5) by lia. exact Hpage.
Qed.

Lemma caption_matches_rows_witness :
  display_history_list show_all 3 twelve_rows
  = history_rows [sample_row 11 1.0 1.0; sample_row 12 1.0 1.0] 11 12 12
  /\ 12 - 11 + 1 = Z.of_nat (List.length [sample_row 11 1.0 1.0; sample_row 12 1.0 1.0]).
Proof.
  split; [reflexivity|].
  exact (proj1 (proj2 (proj2 (proj2 (proj2
           (caption_matches_rows show_all 3 twelve_rows
              [sample_row 11 1.0 1.0; sample_row 12 1.0 1.0] 11 12 12 eq_refl)))))).
Defined.

Lemma In_firstn {A : Type} (n : nat) (l : list A) (x : A) :
  In x (firstn n l) -> In x l.
Proof.
  intros H. rewrite <- (firstn_skipn n l). apply in_or_app. left. exact H.
Qed.

Lemma In_skipn {A : Type} (n : nat) (l : list A) (x : A) :
  In x (skipn n l) -> In x l.
Proof.
  intros H. rewrite <- (firstn_skipn n l). apply in_or_app. right. exact H.
Qed.

(** X12: the history tab shows its "no history matches" message exactly when
    no record passes the filter, and under "Show All" exactly when the
    history is empty; the history page, which shows "no chat history" for an
    empty history and nothing else, therefore never shows "no history
    matches" under "Show All", and every row a tab shows is a record of the
    history that passes the filter. *)
Theorem no_matches_exactly_when_none_pass
  (series_describe : list float -> describe_stats) (series_mean : list float -> float)
  (metric_chosen : nat)
  (option_chosen : display_option) (page_entered : Z) (history_df : list row) :
  (display_history_list option_chosen page_entered history_df = no_history_matches
   <-> filter_history (filter_options option_chosen) history_df = [])
  /\ (display_history_list show_all page_entered history_df = no_history_matches
      <-> history_df = [])
  /\ (display_history_page series_describe series_mean metric_chosen
        option_chosen page_entered history_df = no_chat_history
      <-> history_df = [])
  /\ (forall tab2,
        display_history_page series_describe series_mean metric_chosen
          show_all page_entered history_df
        <> history_tabs no_history_matches tab2)
  /\ (forall r,
        In r (page_rows (display_history_list option_chosen page_entered history_df)) ->
        In r history_df
        /\ In r (filter_history (filter_options option_chosen) history_df)).
Proof.
  assert (N : forall o p,
             display_history_list o p history_df = no_history_matches
             <-> filter_history (filter_options o) history_df = []).
  { intros o p. unfold display_history_list.
    destruct (filter_history (filter_options o) history_df); split;
      try reflexivity; discriminate. }
  split; [apply N|]. split; [apply (N show_all)|]. split; [|split].
  - unfold display_history_page. destruct history_df; split; try reflexivity; discriminate.
  - intros tab2. unfold display_history_page.
    destruct history_df as [|r0 rest]; [discriminate|].
    intros H. injection H as H _. apply (N show_all) in H.
    cbn [filter_options filter_history] in H. discriminate.
  - intros r Hin.
    assert (F : In r (filter_history (filter_options option_chosen) history_df)).
    { destruct (filter_history (filter_options option_chosen) history_df) as [|r0 rest] eqn:E.
      - apply (N option_chosen page_entered) in E. rewrite E in Hin. destruct Hin.
      - assert (Hne : filter_history (filter_options option_chosen) history_df <> [])
          by (rewrite E; discriminate).
        destruct (display_history_list_page option_chosen page_entered history_df Hne)
          as (D & _). rewrite D in Hin. cbn [page_rows] in Hin. rewrite <- E.
        apply In_firstn in Hin. apply (In_skipn _ _ _ Hin). }
    split; [|exact F]. unfold filter_history in F.
    destruct (filter_options option_chosen); [|exact F].
    apply filter_In in F. tauto.
Qed.

(** ** The title of a row's expander *)

Lemma characters_append (s t : string) :
  characters (s ++ t) = (characters s + characters t)%nat.
Proof.
  induction s as [|c s IH]; simpl; [reflexivity|].
  destruct (continues_character c); rewrite IH; reflexivity.
Qed.

Lemma characters_first_characters (n : nat) (s : string) :
  characters (first_characters n s) = Nat.min n (characters s).
Proof.
  revert n. induction s as [|c s IH]; intros n; simpl.
  - rewrite Nat.min_0_r. reflexivity.
  - destruct (continues_character c) eqn:Hc.
    + simpl. rewrite Hc. apply IH.
    + destruct n as [|n]; [reflexivity|]. simpl. rewrite Hc, IH. reflexivity.
Qed.

Lemma first_characters_prefix (n : nat) (s : string) :
  String.prefix (first_characters n s) s = true.
Proof.
  revert n. induction s as [|c s IH]; intros n; simpl; [reflexivity|].
  destruct (continues_character c).
  - simpl. destruct (Ascii.ascii_dec c c); [apply IH|congruence].
  - destruct n as [|n]; [reflexivity|]. simpl.
    destruct (Ascii.ascii_dec c c); [apply IH|congruence].
Qed.

Lemma first_characters_all (n : nat) (s : string) :
  (characters s <= n)%nat -> first_characters n s = s.
Proof.
  revert n. induction s as [|c s IH]; intros n H; simpl in *; [reflexivity|].
  destruct (continues_character c).
  - rewrite IH by exact H. reflexivity.
  - destruct n as [|n]; [lia|]. rewrite IH by lia. reflexivity.
Qed.

(** The cut falls between two characters: what is left of the text after
    its first [n] characters is empty or starts a character. *)
Lemma first_characters_whole (n : nat) (s : string) :
  exists rest,
    s = (first_characters n s ++ rest)%string
    /\ match rest with
       | EmptyString => True
       | String c _ => continues_character c = false
       end.
Proof.
  revert n. induction s as [|c s IH]; intros n; simpl.
  - exists EmptyString. split; [reflexivity|exact I].
  - destruct (continues_character c) eqn:Hc.
    + destruct (IH n) as (rest & E & R). exists rest. split; [|exact R].
      simpl. rewrite <- E. reflexivity.
    + destruct n as [|n].
      * exists (String c s). split; [reflexivity|exact Hc].
      * destruct (IH n) as (rest & E & R). exists rest. split; [|exact R].
        simpl. rewrite <- E. reflexivity.
Qed.

(** X13: the expander of a row is titled with its timestamp, [" - Q: "], an
    excerpt of the question and ["..."]; the excerpt is ["N/A"] for an empty
    question and otherwise the first fifty characters of the question
    (characters, not bytes: a character of several bytes counts once and is
    never cut), the whole question when it has no more than fifty; so the
    title has at most 59 characters more than the timestamp. *)
Theorem expander_title_excerpt (r : row) :
  expander_title r = (timestamp r ++ " - Q: " ++ question_excerpt r ++ "...")%string
  /\ (question r = EmptyString -> question_excerpt r = "N/A"%string)
  /\ (question r <> EmptyString ->
      question_excerpt r = first_characters 50 (question r)
      /\ characters (question_excerpt r) = Nat.min 50 (characters (question r))
      /\ exists rest,
           question r = (question_excerpt r ++ rest)%string
           /\ match rest with
              | EmptyString => True
              | String c _ => continues_character c = false
              end)
  /\ (question r <> EmptyString -> (characters (question r) <= 50)%nat ->
      question_excerpt r = question r)
  /\ (characters (question_excerpt r) <= 50)%nat
  /\ characters (expander_title r)
     = (characters (timestamp r) + 9 + characters (question_excerpt r))%nat.
Proof.
  split; [reflexivity|]. unfold expander_title, question_excerpt.
  destruct (truthy (question r)) eqn:T.
  - apply truthy_true in T. split; [congruence|]. split; [|split; [|split]].
    + intros _. split; [reflexivity|].
      split; [apply characters_first_characters|apply first_characters_whole].
    + intros _ H. apply first_characters_all. exact H.
    + rewrite characters_first_characters. lia.
    + rewrite !characters_append. simpl. lia.
  - apply truthy_false in T. split; [reflexivity|]. split; [congruence|].
    split; [congruence|]. split; [simpl; lia|].
    rewrite !characters_append. simpl. lia.
Qed.

(** A question of sixty characters of three bytes each is cut after fifty
    characters, which are 150 bytes. *)
Example sixty_characters_excerpt :
  characters (question sixty_characters_row) = 60%nat
  /\ question_excerpt sixty_characters_row = repeat_text 50 hiragana_a
  /\ characters (question_excerpt sixty_characters_row) = 50%nat
  /\ String.length (question_excerpt sixty_characters_row) = 150%nat.
Proof. repeat split; vm_compute; reflexivity. Qed.

(** ** The efficiency chart *)

Lemma top_efficiency_length (analysis_df : list row) :
  List.length (top_efficiency analysis_df) = Nat.min 10 (List.length analysis_df)
  /\ forall r, In r (top_efficiency analysis_df) -> In r analysis_df.
Proof.
  unfold top_efficiency, Pandas.head.
  pose proof (sort_values_desc_perm efficiency_score analysis_df) as HP. split.
  - rewrite length_firstn, (Permutation_length HP). reflexivity.
  - intros r H. apply In_firstn in H. apply (Permutation_in _ HP H).
Qed.

(** X14: the chart holds the best records.  The records charted are ten, or
    all of them when there are fewer; they stand in descending order of
    efficiency score; and every record left out of the chart scores no
    higher than every record in it (or has no score at all). *)
Theorem top_efficiency_is_the_best (analysis_df : list row) :
  List.length (top_efficiency analysis_df) = Nat.min 10 (List.length analysis_df)
  /\ StronglySorted (Pandas.ranks_no_lower efficiency_score) (top_efficiency analysis_df)
  /\ exists left_out : list row,
       Permutation (top_efficiency analysis_df ++ left_out) analysis_df
       /\ forall r r' : row,
            In r (top_efficiency analysis_df) -> In r' left_out ->
            Pandas.isna (efficiency_score r') = true
            \/ (efficiency_score r' <=? efficiency_score r)%float = true.
Proof.
  unfold top_efficiency, Pandas.head.
  set (sorted := Pandas.sort_values_desc efficiency_score analysis_df).
  pose proof (sort_values_desc_perm efficiency_score analysis_df) as HP. fold sorted in HP.
  pose proof (sort_values_desc_sorted efficiency_score analysis_df) as HS. fold sorted in HS.
  rewrite <- (firstn_skipn 10 sorted) in HS.
  apply StronglySorted_app_inv in HS. destruct HS as [S1 S2].
  split; [|split; [exact S1|]].
  - rewrite length_firstn, (Permutation_length HP). reflexivity.
  - exists (skipn 10 sorted). split.
    + rewrite firstn_skipn. exact HP.
    + intros r r' Hr Hr'. exact (S2 r r' Hr Hr').
Qed.

(** The two ways the efficiency view can end on a frame that is not
    empty. *)
Lemma efficiency_view_cases (analysis_df : list row) :
  analysis_df <> [] ->
  (Pandas.any_notna response_time analysis_df = true
   /\ map (fun r => (id r, efficiency_score r)) (top_efficiency analysis_df) <> []
   /\ efficiency_view analysis_df
      = [ st_write "##### Efficiency score (accuracy / (response time + 0.1))";
          st_bar_chart_scores
            (map (fun r => (id r, efficiency_score r)) (top_efficiency analysis_df)) ])
  \/ (Pandas.any_notna response_time analysis_df = false
      /\ efficiency_view analysis_df
         = [ st_write "##### Efficiency score (accuracy / (response time + 0.1))";
             st_info "No response time data available to calculate efficiency score." ]).
Proof.
  intros Hne. unfold efficiency_view, efficiency_ranking.
  destruct (Pandas.any_notna response_time analysis_df); [left|right; auto].
  assert (N : map (fun r => (id r, efficiency_score r)) (top_efficiency analysis_df) <> []).
  { intros E. apply (f_equal (@List.length _)) in E.
    rewrite length_map in E.
    destruct (top_efficiency_length analysis_df) as [L _]. rewrite L in E.
    destruct analysis_df; [congruence|]. simpl in E. discriminate. }
  split; [reflexivity|]. split; [exact N|].
  destruct (map (fun r => (id r, efficiency_score r)) (top_efficiency analysis_df));
    [congruence|reflexivity].
Qed.

(** ** The accuracy distribution *)

Lemma unique_In (l : list string) (x : string) : In x (Pandas.unique l) <-> In x l.
Proof.
  induction l as [|y l IH]; simpl; [tauto|].
  rewrite filter_In, IH, negb_true_iff, String.eqb_neq.
  destruct (string_dec y x); [tauto|]. split; [tauto|].
  intros [H|H]; [tauto|auto].
Qed.

Lemma unique_NoDup (l : list string) : NoDup (Pandas.unique l).
Proof.
  induction l as [|y l IH]; simpl; constructor.
  - rewrite filter_In, negb_true_iff, String.eqb_neq. tauto.
  - apply NoDup_filter. exact IH.
Qed.

Lemma insert_count_perm (x : string * nat) (l : list (string * nat)) :
  Permutation (Pandas.insert_count x l) (x :: l).
Proof.
  induction l as [|y l IH]; simpl; [apply Permutation_refl|].
  destruct (snd y <=? snd x)%nat; [apply Permutation_refl|].
  eapply Permutation_trans; [apply perm_skip, IH|apply perm_swap].
Qed.

Lemma sort_counts_perm (l : list (string * nat)) :
  Permutation (fold_right Pandas.insert_count [] l) l.
Proof.
  induction l as [|x l IH]; simpl; [apply perm_nil|].
  eapply Permutation_trans; [apply insert_count_perm|apply perm_skip, IH].
Qed.

Lemma sort_counts_sorted (l : list (string * nat)) :
  StronglySorted (fun a b => (snd b <= snd a)%nat) (fold_right Pandas.insert_count [] l).
Proof.
  induction l as [|x l IH]; simpl; [constructor|].
  set (s := fold_right Pandas.insert_count [] l) in *. clearbody s.
  induction s as [|y s IHs]; simpl.
  - repeat constructor.
  - inversion IH as [|? ? Hs Hall]; subst.
    destruct (Nat.leb_spec (snd y) (snd x)) as [L|G].
    + constructor; [exact IH|]. constructor; [exact L|].
      eapply Forall_impl; [|exact Hall]. simpl. intros z Hz. lia.
    + constructor; [apply IHs; exact Hs|].
      eapply Permutation_Forall; [apply Permutation_sym, insert_count_perm|].
      constructor; [lia|exact Hall].
Qed.

(** The labels of a frame, and how often each occurs. *)
Lemma present_labels_In (df : list row) (k : string) :
  In k (Pandas.present_labels (map Accuracy df)) <-> exists r, In r df /\ Accuracy r = Some k.
Proof.
  induction df as [|r df IH]; simpl.
  - split; [tauto|]. intros (r & [] & _).
  - destruct (Accuracy r) as [l|] eqn:E; simpl; rewrite IH; split.
    + intros [<-|(r' & H1 & H2)]; [exists r; auto|exists r'; auto].
    + intros (r' & [<-|H1] & H2); [left; congruence|right; eauto].
    + intros (r' & H1 & H2). eauto.
    + intros (r' & [<-|H1] & H2); [congruence|eauto].
Qed.

Lemma count_label (df : list row) (k : string) :
  count_occ string_dec (Pandas.present_labels (map Accuracy df)) k
  = List.length (filter (has_label k) df).
Proof.
  induction df as [|r df IH]; simpl; [reflexivity|].
  unfold has_label at 1. destruct (Accuracy r) as [l|]; simpl; [|exact IH].
  destruct (string_dec l k) as [->|N].
  - rewrite String.eqb_refl. simpl. rewrite IH. reflexivity.
  - apply String.eqb_neq in N. rewrite N. exact IH.
Qed.

Lemma sum_indicator (x : string) (ks : list string) :
  NoDup ks -> In x ks ->
  list_sum (map (fun k => if string_dec x k then 1 else 0)%nat ks) = 1%nat.
Proof.
  induction 1 as [|k ks Hk Hnd IH]; simpl; [tauto|].
  intros [->|Hin].
  - destruct (string_dec x x); [|congruence]. f_equal.
    clear IH Hnd. induction ks as [|k ks IH]; simpl; [reflexivity|].
    destruct (string_dec x k) as [->|N]; [simpl in Hk; tauto|].
    apply IH. simpl in Hk. tauto.
  - destruct (string_dec x k) as [->|N]; [tauto|]. apply IH. exact Hin.
Qed.

(** Over keys without repeats that cover a list, the occurrences add up to
    the length of the list. *)
Lemma sum_count_occ (l ks : list string) :
  NoDup ks -> incl l ks ->
  list_sum (map (count_occ string_dec l) ks) = List.length l.
Proof.
  intros Hnd. induction l as [|x l IH]; intros Hincl.
  - clear Hnd Hincl. induction ks as [|k ks IHk]; simpl; [reflexivity|exact IHk].
  - assert (Hx : In x ks) by (apply Hincl; left; reflexivity).
    assert (Hl : incl l ks) by (intros y Hy; apply Hincl; right; exact Hy).
    specialize (IH Hl).
    transitivity (list_sum (map (fun k => if string_dec x k then 1 else 0)%nat ks)
                  + list_sum (map (count_occ string_dec l) ks))%nat.
    + clear. induction ks as [|k ks IHk]; simpl; [reflexivity|].
      destruct (string_dec x k); simpl in *; lia.
    + rewrite (sum_indicator x ks Hnd Hx), IH. reflexivity.
Qed.

(** X15: the accuracy distribution counts each class once and exactly.  It
    has one bar for each label that occurs among the records, the height of
    a bar is the number of records with that label (at least one), bars
    stand in descending order of height, there are at most three of them,
    and their heights add up to the number of records that have a label. *)
Theorem distribution_counts_each_label (analysis_df : list row) :
  NoDup (map fst (accuracy_counts analysis_df))
  /\ (forall (k : string) (n : nat),
        In (k, n) (accuracy_counts analysis_df)
        <-> n = List.length (filter (has_label k) analysis_df) /\ (1 <= n)%nat)
  /\ StronglySorted (fun a b => (snd b <= snd a)%nat) (accuracy_counts analysis_df)
  /\ (List.length (accuracy_counts analysis_df) <= 3)%nat
  /\ list_sum (map snd (accuracy_counts analysis_df))
     = List.length (filter (fun r => match Accuracy r with
                                     | Some _ => true
                                     | None => false
                                     end) analysis_df).
Proof.
  unfold accuracy_counts, Pandas.value_counts.
  set (labels := Pandas.present_labels (map Accuracy analysis_df)).
  set (table := map (fun k => (k, count_occ string_dec labels k)) (Pandas.unique labels)).
  pose proof (sort_counts_perm table) as HP.
  assert (Hfst : map fst table = Pandas.unique labels).
  { unfold table. rewrite map_map. simpl. apply map_id. }
  assert (Hnd : NoDup (map fst (fold_right Pandas.insert_count [] table))).
  { eapply Permutation_NoDup; [apply Permutation_map, Permutation_sym, HP|].
    rewrite Hfst. apply unique_NoDup. }
  split; [exact Hnd|]. split; [|split; [apply sort_counts_sorted|split]].
  - intros k n. split.
    + intros H. apply (Permutation_in _ HP) in H. unfold table in H.
      apply in_map_iff in H. destruct H as (k' & E & Hk). injection E as <- <-.
      apply (proj1 (unique_In _ _)) in Hk. split; [apply count_label|].
      apply (proj1 (count_occ_In string_dec _ _)) in Hk. exact Hk.
    + intros [-> Hn]. rewrite <- count_label in Hn |- *. fold labels in Hn |- *.
      apply (Permutation_in _ (Permutation_sym HP)).
      unfold table. apply in_map_iff. exists k.
      split; [reflexivity|]. apply (proj2 (unique_In _ _)).
      apply (proj2 (count_occ_In string_dec _ _)). exact Hn.
  - rewrite <- (length_map fst).
    apply (NoDup_incl_length (l' := ["Accurate"; "Partially accurate"; "Inaccurate"]%string) Hnd).
    intros k Hk.
    apply (Permutation_in _ (Permutation_map fst HP)) in Hk. rewrite Hfst in Hk.
    apply (proj1 (unique_In _ _)) in Hk.
    apply (proj1 (present_labels_In _ _)) in Hk. destruct Hk as (r & _ & E).
    destruct (Accuracy_values r) as [A|[A|[A|A]]]; rewrite A in E;
      try discriminate; injection E as <-; simpl; auto.
  - rewrite (Permutation_list_sum (Permutation_map snd HP)).
    unfold table. rewrite map_map. simpl.
    rewrite sum_count_occ;
      [|apply unique_NoDup|intros k Hk; apply (proj2 (unique_In _ _)); exact Hk].
    unfold labels. clear. induction analysis_df as [|r df IH]; simpl; [reflexivity|].
    destruct (Accuracy r); simpl; rewrite IH; reflexivity.
Qed.

(** ** What each view can show *)

Lemma accuracy_counts_keys (analysis_df : list row) (k : string) :
  In k (map fst (accuracy_counts analysis_df))
  <-> exists r, In r analysis_df /\ Accuracy r = Some k.
Proof.
  unfold accuracy_counts, Pandas.value_counts.
  set (labels := Pandas.present_labels (map Accuracy analysis_df)).
  set (table := map (fun k => (k, count_occ string_dec labels k)) (Pandas.unique labels)).
  assert (Hfst : map fst table = Pandas.unique labels).
  { unfold table. rewrite map_map. simpl. apply map_id. }
  pose proof (Permutation_map fst (sort_counts_perm table)) as HP. rewrite Hfst in HP.
  split; intros H.
  - apply (Permutation_in _ HP) in H. apply (proj1 (unique_In _ _)) in H.
    apply (proj1 (present_labels_In _ _)) in H. exact H.
  - apply (Permutation_in _ (Permutation_sym HP)). apply (proj2 (unique_In _ _)).
    apply (proj2 (present_labels_In _ _)). exact H.
Qed.

Lemma group_keys_In (analysis_df : list row) (k : string) :
  In k (group_keys analysis_df) <-> exists r, In r analysis_df /\ Accuracy r = Some k.
Proof.
  unfold group_keys. rewrite filter_In, existsb_exists. split.
  - intros (_ & r & Hr & Hl). exists r. split; [exact Hr|].
    unfold has_label in Hl. destruct (Accuracy r) as [l|]; [|discriminate].
    apply String.eqb_eq in Hl. congruence.
  - intros (r & Hr & E). split.
    + destruct (Accuracy_values r) as [A|[A|[A|A]]]; rewrite A in E;
        try discriminate; injection E as <-; simpl; auto.
    + exists r. split; [exact Hr|]. unfold has_label. rewrite E. apply String.eqb_refl.
Qed.

Lemma distribution_view_calls (analysis_df : list row) (c : st_call) :
  In c (distribution_view analysis_df) ->
  c = st_write "##### Distribution of accuracy"
  \/ c = st_info "No accuracy data available."
  \/ exists data, c = st_bar_chart_counts data.
Proof.
  unfold distribution_view. destruct (accuracy_counts analysis_df);
    intros [<-|[<-|[]]]; eauto.
Qed.

Lemma efficiency_view_calls (analysis_df : list row) (c : st_call) :
  analysis_df <> [] ->
  In c (efficiency_view analysis_df) ->
  c = st_write "##### Efficiency score (accuracy / (response time + 0.1))"
  \/ c = st_info "No response time data available to calculate efficiency score."
  \/ (c = st_bar_chart_scores
            (map (fun r => (id r, efficiency_score r)) (top_efficiency analysis_df))
      /\ map (fun r => (id r, efficiency_score r)) (top_efficiency analysis_df) <> []).
Proof.
  intros Hne. destruct (efficiency_view_cases analysis_df Hne) as [(_ & N & ->)|(_ & ->)];
    intros [<-|[<-|[]]]; auto.
Qed.

Section AnalysisViews.

Variable series_describe : list float -> describe_stats.
Variable series_mean : list float -> float.
Variable metric_chosen : nat.

Lemma scatter_view_calls (analysis_df : list row) (c : st_call) :
  In c (scatter_view metric_chosen analysis_df) ->
  c = st_write "##### Relationship between response time and other metrics"
  \/ c = st_info "No metric data available for comparison with response time."
  \/ (exists m,
         c = st_info ("No valid data for selected metric (" ++ m ++ ") and response time."))
  \/ exists y data, c = st_scatter_chart y data.
Proof.
  unfold scatter_view. destruct (valid_columns metric_options analysis_df) as [|m ms].
  - intros [<-|[<-|[]]]; auto.
  - destruct (chart_data _ analysis_df); intros [<-|[<-|[]]]; eauto 6.
Qed.

Lemma statistics_view_calls (analysis_df : list row) (c : st_call) :
  In c (statistics_view series_describe analysis_df) ->
  c = st_write "##### Overall metrics statistics"
  \/ c = st_info "No metrics data available to compute statistics."
  \/ exists table, c = st_dataframe_describe table.
Proof.
  unfold statistics_view. destruct (valid_columns stats_cols analysis_df);
    intros [<-|[<-|[]]]; eauto.
Qed.

Lemma groups_view_calls (analysis_df : list row) (c : st_call) :
  In c (groups_view series_mean analysis_df) ->
  c = st_write "##### Average scores by accuracy level"
  \/ c = st_info "No data available to calculate average scores by accuracy level."
  \/ exists columns groups, c = st_dataframe_means columns groups.
Proof.
  unfold groups_view. destruct (valid_columns stats_cols analysis_df);
    intros [<-|[<-|[]]]; eauto.
Qed.

(** Where a call of the analysis comes from. *)
Lemma display_metrics_analysis_calls (history_df : list row) (c : st_call) :
  In c (display_metrics_analysis series_describe series_mean metric_chosen history_df) ->
  c = st_write "#### Metrics Analysis"
  \/ c = st_warning "No evaluation data available for analysis."
  \/ (Pandas.dropna is_correct history_df <> []
      /\ (In c (distribution_view (Pandas.dropna is_correct history_df))
          \/ In c (scatter_view metric_chosen (Pandas.dropna is_correct history_df))
          \/ In c (statistics_view series_describe (Pandas.dropna is_correct history_df))
          \/ In c (groups_view series_mean (Pandas.dropna is_correct history_df))
          \/ In c (efficiency_view (Pandas.dropna is_correct history_df)))).
Proof.
  unfold display_metrics_analysis.
  destruct (Pandas.dropna is_correct history_df) as [|r0 rest] eqn:E.
  - intros [<-|[<-|[]]]; auto.
  - intros [<-|H]; [auto|]. right. right. split; [discriminate|].
    rewrite !in_app_iff in H. tauto.
Qed.

(** X16: the efficiency chart is drawn from the rated records and is never
    empty.  Whenever the analysis draws the efficiency chart it has between
    one and ten bars, each bar is the id and the efficiency score of a
    record of the history whose accuracy score is present, and the
    analysis never reports "No efficiency score data available.". *)
Theorem efficiency_chart_shows_rated_records (history_df : list row) :
  (forall ranking : list (Z * float),
      In (st_bar_chart_scores ranking)
        (display_metrics_analysis series_describe series_mean metric_chosen history_df) ->
      (1 <= List.length ranking <= 10)%nat
      /\ forall (i : Z) (s : float),
           In (i, s) ranking ->
           exists r, In r history_df /\ Pandas.notna (is_correct r) = true
                     /\ id r = i /\ efficiency_score r = s)
  /\ ~ In (st_info "No efficiency score data available.")
         (display_metrics_analysis series_describe series_mean metric_chosen history_df).
Proof.
  split.
  - intros ranking H. apply display_metrics_analysis_calls in H.
    destruct H as [H|[H|(Hne & [H|[H|[H|[H|H]]]])]]; try discriminate.
    + apply distribution_view_calls in H. destruct H as [H|[H|(d & H)]]; discriminate.
    + apply scatter_view_calls in H.
      destruct H as [H|[H|[(m & H)|(y & d & H)]]]; discriminate.
    + apply statistics_view_calls in H. destruct H as [H|[H|(d & H)]]; discriminate.
    + apply groups_view_calls in H. destruct H as [H|[H|(d & g & H)]]; discriminate.
    + apply (efficiency_view_calls _ _ Hne) in H.
      destruct H as [H|[H|(H & N)]]; try discriminate. injection H as ->.
      destruct (top_efficiency_length (Pandas.dropna is_correct history_df)) as [L Hin].
      rewrite length_map, L. split.
      * destruct (Pandas.dropna is_correct history_df); [congruence|].
        cbn [List.length]. lia.
      * intros i s Hi. apply in_map_iff in Hi. destruct Hi as (r & E & Hr).
        injection E as <- <-. apply Hin in Hr. apply filter_In in Hr.
        exists r. tauto.
  - intros H. apply display_metrics_analysis_calls in H.
    destruct H as [H|[H|(Hne & [H|[H|[H|[H|H]]]])]]; try discriminate.
    + apply distribution_view_calls in H. destruct H as [H|[H|(d & H)]]; discriminate.
    + apply scatter_view_calls in H.
      destruct H as [H|[H|[(m & H)|(y & d & H)]]]; discriminate.
    + apply statistics_view_calls in H. destruct H as [H|[H|(d & H)]]; discriminate.
    + apply groups_view_calls in H. destruct H as [H|[H|(d & g & H)]]; discriminate.
    + apply (efficiency_view_calls _ _ Hne) in H.
      destruct H as [H|[H|(H & N)]]; discriminate.
Qed.

(** X17: the grouped averages have one row for each label that has a bar in
    the accuracy distribution, and for no other: a group is listed exactly
    when some record carries its label, it is never empty, and its row has
    one average for each column of the table. *)
Theorem groups_match_distribution (columns : list string) (analysis_df : list row) :
  map fst (accuracy_groups series_mean columns analysis_df) = group_keys analysis_df
  /\ (forall k : string,
        In k (group_keys analysis_df) <-> In k (map fst (accuracy_counts analysis_df)))
  /\ (forall (k : string) (means : list float),
        In (k, means) (accuracy_groups series_mean columns analysis_df) ->
        filter (has_label k) analysis_df <> []
        /\ List.length means = List.length columns)
  /\ (List.length (accuracy_groups series_mean columns analysis_df) <= 3)%nat.
Proof.
  split; [|split; [|split]].
  - unfold accuracy_groups. rewrite map_map. simpl. apply map_id.
  - intros k. rewrite group_keys_In, accuracy_counts_keys. reflexivity.
  - intros k means H. unfold accuracy_groups in H. apply in_map_iff in H.
    destruct H as (k' & E & Hk). injection E as <- <-. split.
    + apply group_keys_In in Hk. destruct Hk as (r & Hr & A).
      intros E. assert (Hin : In r (filter (has_label k') analysis_df)).
      { apply filter_In. split; [exact Hr|]. unfold has_label. rewrite A.
        apply String.eqb_refl. }
      rewrite E in Hin. destruct Hin.
    + apply length_map.
  - unfold accuracy_groups, group_keys. rewrite length_map.
    etransitivity; [apply filter_length_le|]. simpl. lia.
Qed.

Lemma valid_columns_In (names : list string) (analysis_df : list row) (m : string) :
  In m (valid_columns names analysis_df)
  <-> In m names
      /\ exists c, column m = Some c
                   /\ exists r, In r analysis_df /\ Pandas.notna (c r) = true.
Proof.
  unfold valid_columns. rewrite filter_In. split.
  - intros (Hm & H). split; [exact Hm|].
    destruct (column m) as [c|]; [|discriminate]. exists c. split; [reflexivity|].
    apply existsb_exists in H. exact H.
  - intros (Hm & c & -> & H). split; [exact Hm|]. apply existsb_exists. exact H.
Qed.

Lemma selectbox_In (options : list string) (chosen : nat) :
  options <> [] -> In (selectbox options chosen) options.
Proof.
  intros Hne. unfold selectbox.
  destruct (Nat.lt_ge_cases chosen (List.length options)) as [L|G].
  - apply nth_In. exact L.
  - rewrite nth_overflow by exact G. destruct options; [congruence|]. left. reflexivity.
Qed.

Lemma chart_data_length (m : string) (analysis_df : list row) :
  (List.length (chart_data m analysis_df) <= List.length analysis_df)%nat.
Proof.
  induction analysis_df as [|r df IH]; simpl; [lia|].
  rewrite length_app.
  destruct (Accuracy r); [|simpl; lia].
  destruct (Pandas.notna (response_time r) && Pandas.notna (cell m r)); simpl; lia.
Qed.

(** X18: what the scatter chart plots.  When the analysis draws the chart,
    its metric is one of the four metric options and a column of the frame
    in which some record has a value, whatever index the select box
    returned; the chart has at least one point and at most one for each
    record; and every point is the response time, the metric value and the
    accuracy label of one record, all three present. *)
Theorem scatter_chart_points
  (analysis_df : list row) (y : string) (data : list (float * float * string)) :
  In (st_scatter_chart y data) (scatter_view metric_chosen analysis_df) ->
  In y metric_options
  /\ (exists c, column y = Some c
                /\ exists r, In r analysis_df /\ Pandas.notna (c r) = true)
  /\ (1 <= List.length data <= List.length analysis_df)%nat
  /\ forall (t v : float) (l : string),
       In (t, v, l) data ->
       Pandas.notna t = true /\ Pandas.notna v = true
       /\ exists r, In r analysis_df /\ response_time r = t /\ cell y r = v
                    /\ Accuracy r = Some l.
Proof.
  unfold scatter_view.
  destruct (valid_columns metric_options analysis_df) as [|m ms] eqn:V.
  - intros [H|[H|[]]]; discriminate.
  - set (metric_option := selectbox (m :: ms) metric_chosen).
    assert (Hsel : In metric_option (valid_columns metric_options analysis_df)).
    { rewrite V. apply selectbox_In. discriminate. }
    apply valid_columns_In in Hsel. destruct Hsel as (Hopt & Hcol).
    destruct (chart_data metric_option analysis_df) as [|p ps] eqn:C.
    + intros [H|[H|[]]]; discriminate.
    + intros [H|[H|[]]]; [discriminate|]. injection H as <- <-.
      split; [exact Hopt|]. split; [exact Hcol|]. split.
      * rewrite <- C. split; [rewrite C; simpl; lia|apply chart_data_length].
      * intros t v l Hin. rewrite <- C in Hin. unfold chart_data in Hin.
        apply in_flat_map in Hin. destruct Hin as (r & Hr & Hp).
        destruct (Accuracy r) as [l'|] eqn:A; [|destruct Hp].
        destruct (Pandas.notna (response_time r)
                  && Pandas.notna (cell metric_option r)) eqn:N; [|destruct Hp].
        destruct Hp as [E|[]]. injection E as <- <- <-.
        apply andb_true_iff in N. destruct N as [N1 N2].
        split; [exact N1|]. split; [exact N2|]. exists r. auto.
Qed.

(** X19: the statistics table and the grouped averages share their columns.
    Both are shown or both are replaced by their message; when shown, the
    statistics table describes, and the grouped averages average, the same
    columns in the same order: those of [response_time], [bleu_score],
    [similarity_score], [word_count] and [relevance_score], in this order,
    in which some record has a value.  A column no record has a value in is
    left out of both tables. *)
Theorem tables_share_columns (analysis_df : list row) :
  (valid_columns stats_cols analysis_df = [] ->
   statistics_view series_describe analysis_df
   = [ st_write "##### Overall metrics statistics";
       st_info "No metrics data available to compute statistics." ]
   /\ groups_view series_mean analysis_df
      = [ st_write "##### Average scores by accuracy level";
          st_info "No data available to calculate average scores by accuracy level." ])
  /\ (valid_columns stats_cols analysis_df <> [] ->
      statistics_view series_describe analysis_df
      = [ st_write "##### Overall metrics statistics";
          st_dataframe_describe
            (map (fun c => (c, series_describe (map (cell c) analysis_df)))
               (valid_columns stats_cols analysis_df)) ]
      /\ groups_view series_mean analysis_df
         = [ st_write "##### Average scores by accuracy level";
             st_dataframe_means (valid_columns stats_cols analysis_df)
               (accuracy_groups series_mean (valid_columns stats_cols analysis_df)
                  analysis_df) ]
      /\ map fst (map (fun c => (c, series_describe (map (cell c) analysis_df)))
                    (valid_columns stats_cols analysis_df))
         = valid_columns stats_cols analysis_df
      /\ Forall (fun g => List.length (snd g)
                          = List.length (valid_columns stats_cols analysis_df))
           (accuracy_groups series_mean (valid_columns stats_cols analysis_df)
              analysis_df))
  /\ valid_columns stats_cols analysis_df
     = filter (fun c => existsb (fun r => Pandas.notna (cell c r)) analysis_df)
         [ "response_time"; "bleu_score"; "similarity_score"; "word_count";
           "relevance_score" ]%string
  /\ (forall c : string,
        In c (valid_columns stats_cols analysis_df)
        <-> In c stats_cols
            /\ exists f, column c = Some f
                         /\ exists r, In r analysis_df /\ Pandas.notna (f r) = true)
  /\ (exists dropped,
        Permutation (valid_columns stats_cols analysis_df ++ dropped) stats_cols)
  /\ NoDup (valid_columns stats_cols analysis_df).
Proof.
  split; [|split; [|split; [|split; [|split]]]].
  - intros E. unfold statistics_view, groups_view. rewrite E. split; reflexivity.
  - intros N. unfold statistics_view, groups_view.
    destruct (valid_columns stats_cols analysis_df) as [|c cs] eqn:E; [congruence|].
    split; [reflexivity|]. split; [reflexivity|]. split.
    + rewrite map_map. exact (map_id (c :: cs)).
    + unfold accuracy_groups. apply Forall_forall. intros g Hg.
      apply in_map_iff in Hg. destruct Hg as (k & <- & _). cbn [snd]. apply length_map.
  - unfold valid_columns. apply filter_ext. intros c. unfold cell, Pandas.any_notna.
    destruct (column c) as [f|]; [reflexivity|].
    induction analysis_df as [|r l IH]; [reflexivity|]. simpl. exact IH.
  - intros c. apply valid_columns_In.
  - unfold valid_columns.
    exists (filter (fun m => negb match column m with
                                  | Some c => Pandas.any_notna c analysis_df
                                  | None => false
                                  end) stats_cols).
    apply partition_perm.
  - unfold valid_columns. apply NoDup_filter. unfold stats_cols.
    repeat constructor; simpl; intuition discriminate.
Qed.

(** *** The analysis reads no text *)

Lemma column_without_text (m : string) (c : row -> float) (r : row) :
  column m = Some c -> c (without_text r) = c r.
Proof.
  unfold column.
  repeat match goal with
         | |- context [if ?b then _ else _] => destruct b
         end; intros E; try discriminate; injection E as <-; reflexivity.
Qed.

Lemma cell_without_text (m : string) (r : row) : cell m (without_text r) = cell m r.
Proof.
  unfold cell. destruct (column m) as [c|] eqn:E; [|reflexivity].
  apply (column_without_text m c r E).
Qed.

Lemma existsb_map {A B : Type} (p : B -> bool) (f : A -> B) (l : list A) :
  existsb p (map f l) = existsb (fun a => p (f a)) l.
Proof. induction l as [|a l IH]; simpl; [reflexivity|]. rewrite IH. reflexivity. Qed.

Lemma insert_desc_map {A : Type} (c : A -> float) (f : A -> A) (x : A) (l : list A) :
  (forall a, c (f a) = c a) ->
  Pandas.insert_desc c (f x) (map f l) = map f (Pandas.insert_desc c x l).
Proof.
  intros Hc. induction l as [|y l IH]; simpl; [reflexivity|].
  rewrite !Hc. destruct (c y <=? c x)%float; [reflexivity|].
  simpl. rewrite IH. reflexivity.
Qed.

(** Sorting commutes with a change of the rows that keeps their keys. *)
Lemma sort_values_desc_map {A : Type} (c : A -> float) (f : A -> A) (l : list A) :
  (forall a, c (f a) = c a) ->
  Pandas.sort_values_desc c (map f l) = map f (Pandas.sort_values_desc c l).
Proof.
  intros Hc. unfold Pandas.sort_values_desc.
  rewrite !filter_map_swap, map_app. f_equal.
  - rewrite (filter_ext _ (fun r => Pandas.notna (c r))) by (intros a; rewrite Hc; reflexivity).
    generalize (filter (fun r => Pandas.notna (c r)) l). intros l'.
    induction l' as [|x l' IH]; simpl; [reflexivity|].
    rewrite IH. apply insert_desc_map. exact Hc.
  - f_equal. apply filter_ext. intros a. rewrite Hc. reflexivity.
Qed.

Lemma valid_columns_without_text (names : list string) (analysis_df : list row) :
  valid_columns names (map without_text analysis_df) = valid_columns names analysis_df.
Proof.
  unfold valid_columns. apply filter_ext. intros m.
  destruct (column m) as [c|] eqn:E; [|reflexivity].
  unfold Pandas.any_notna. rewrite existsb_map.
  induction analysis_df as [|r df IH]; simpl; [reflexivity|].
  rewrite (column_without_text m c r E), IH. reflexivity.
Qed.

Lemma chart_data_without_text (m : string) (analysis_df : list row) :
  chart_data m (map without_text analysis_df) = chart_data m analysis_df.
Proof.
  unfold chart_data. induction analysis_df as [|r df IH]; simpl; [reflexivity|].
  rewrite IH, cell_without_text. reflexivity.
Qed.

Lemma cells_without_text (m : string) (df : list row) :
  map (cell m) (map without_text df) = map (cell m) df.
Proof. rewrite map_map. apply map_ext. intros r. apply cell_without_text. Qed.

Lemma has_label_filter_without_text (k : string) (df : list row) :
  filter (has_label k) (map without_text df) = map without_text (filter (has_label k) df).
Proof. rewrite filter_map_swap. reflexivity. Qed.

Lemma efficiency_ranking_without_text (analysis_df : list row) :
  efficiency_ranking (map without_text analysis_df) = efficiency_ranking analysis_df.
Proof.
  unfold efficiency_ranking, top_efficiency, Pandas.head, Pandas.any_notna.
  rewrite existsb_map. cbn [without_text response_time].
  rewrite (sort_values_desc_map efficiency_score without_text) by reflexivity.
  rewrite firstn_map, map_map. reflexivity.
Qed.

(** The views on a frame of feedback-bearing records read no text. *)
Lemma views_without_text (analysis_df : list row) :
  distribution_view (map without_text analysis_df) = distribution_view analysis_df
  /\ scatter_view metric_chosen (map without_text analysis_df)
     = scatter_view metric_chosen analysis_df
  /\ statistics_view series_describe (map without_text analysis_df)
     = statistics_view series_describe analysis_df
  /\ groups_view series_mean (map without_text analysis_df)
     = groups_view series_mean analysis_df
  /\ efficiency_view (map without_text analysis_df) = efficiency_view analysis_df.
Proof.
  split; [|split; [|split; [|split]]].
  - unfold distribution_view, accuracy_counts. rewrite map_map. reflexivity.
  - unfold scatter_view. rewrite valid_columns_without_text.
    destruct (valid_columns metric_options analysis_df); [reflexivity|].
    rewrite chart_data_without_text. reflexivity.
  - unfold statistics_view. rewrite valid_columns_without_text.
    destruct (valid_columns stats_cols analysis_df) as [|c cs]; [reflexivity|].
    do 3 f_equal. apply map_ext. intros m. rewrite cells_without_text. reflexivity.
  - unfold groups_view. rewrite valid_columns_without_text.
    destruct (valid_columns stats_cols analysis_df) as [|c cs]; [reflexivity|].
    do 3 f_equal. unfold accuracy_groups, group_keys.
    rewrite (filter_ext (fun k => existsb (has_label k) (map without_text analysis_df))
               (fun k => existsb (has_label k) analysis_df))
      by (intros k; rewrite existsb_map; reflexivity).
    apply map_ext. intros k. f_equal. apply map_ext. intros m.
    rewrite has_label_filter_without_text, cells_without_text. reflexivity.
  - unfold efficiency_view. rewrite efficiency_ranking_without_text. reflexivity.
Qed.

Lemma display_metrics_analysis_without_text (history_df : list row) :
  display_metrics_analysis series_describe series_mean metric_chosen
    (map without_text history_df)
  = display_metrics_analysis series_describe series_mean metric_chosen history_df.
Proof.
  unfold display_metrics_analysis, Pandas.dropna.
  rewrite filter_map_swap. cbn [without_text is_correct].
  set (analysis_df := filter (fun r => Pandas.notna (is_correct r)) history_df).
  destruct (views_without_text analysis_df) as (V1 & V2 & V3 & V4 & V5).
  clearbody analysis_df. destruct analysis_df as [|r0 rest]; [reflexivity|].
  cbn [map] in *. rewrite V1, V2, V3, V4, V5. reflexivity.
Qed.

(** X20: the analysis reads only the id and the numeric columns of a record.
    Two histories whose records agree, one by one, on the id, the accuracy
    score, the response time and the four metrics give the same analysis,
    call for call: questions, answers, feedback texts, reference answers and
    timestamps never reach a chart, a table or a message. *)
Theorem analysis_reads_no_text (history_df history_df' : list row) :
  map without_text history_df = map without_text history_df' ->
  display_metrics_analysis series_describe series_mean metric_chosen history_df
  = display_metrics_analysis series_describe series_mean metric_chosen history_df'.
Proof.
  intros E.
  rewrite <- (display_metrics_analysis_without_text history_df),
          <- (display_metrics_analysis_without_text history_df'), E.
  reflexivity.
Qed.

End AnalysisViews.

Lemma scatter_chart_points_witness :
  In (st_scatter_chart "bleu_score" [(2.0%float, 0.5%float, "Accurate"%string)])
     (scatter_view 0
        [mkRow 1 EmptyString EmptyString EmptyString EmptyString EmptyString
           1.0 2.0 0.5 nan nan nan])
  /\ In "bleu_score"%string metric_options
  /\ (1 <= List.length [(2.0%float, 0.5%float, "Accurate"%string)] <= 1)%nat.
Proof.
  assert (H : In (st_scatter_chart "bleu_score" [(2.0%float, 0.5%float, "Accurate"%string)])
                (scatter_view 0
                   [mkRow 1 EmptyString EmptyString EmptyString EmptyString EmptyString
                      1.0 2.0 0.5 nan nan nan]))
    by (right; left; reflexivity).
  pose proof (scatter_chart_points 0 _ _ _ H) as (H1 & _ & H3 & _).
  split; [exact H|]. split; [exact H1|exact H3].
Defined.

Lemma analysis_reads_no_text_witness :
  map without_text
    [mkRow 1 "2025-01-01" "What is Rocq?" "A proof assistant." "Accurate: good" "An ITP."
       1.0 1.0 nan nan nan nan]
  = map without_text [sample_row 1 1.0 1.0]
  /\ display_metrics_analysis (fun _ => mkDescribe 0 0 0 0 0 0 0 0) (fun _ => 0%float) 0
       [mkRow 1 "2025-01-01" "What is Rocq?" "A proof assistant." "Accurate: good" "An ITP."
          1.0 1.0 nan nan nan nan]
     = display_metrics_analysis (fun _ => mkDescribe 0 0 0 0 0 0 0 0) (fun _ => 0%float) 0
         [sample_row 1 1.0 1.0].
Proof.
  split; [reflexivity|].
  apply (analysis_reads_no_text (fun _ => mkDescribe 0 0 0 0 0 0 0 0) (fun _ => 0%float) 0).
  reflexivity.
Defined.

(** ** The score of an inaccurate answer *)

Module FloatSum.

(** A positive mantissa above the smallest subnormal rounds to a finite
    float of its sign or to the infinity of its sign. *)
Lemma binary_round_aux_shape (sx : bool) (p : positive) (e : Z) (l : location) :
  SpecFloat.emin prec emax < Zpos (digits2_pos p) + e ->
  (exists m e', binary_round_aux prec emax sx (Zpos p) e l = S754_finite sx m e')
  \/ binary_round_aux prec emax sx (Zpos p) e l = S754_infinity sx.
Proof.
  intros H. unfold binary_round_aux.
  destruct (FloatRounding.shr_fexp_positive p e l H) as (p1 & E1 & D1).
  destruct (shr_fexp prec emax (Zpos p) e l) as [mrs' e'] eqn:S1.
  cbn [fst snd] in E1, D1. rewrite E1.
  destruct (FloatRounding.round_nearest_even_positive p1 (loc_of_shr_record mrs'))
    as (p2 & E2 & D2).
  rewrite E2.
  assert (H2 : SpecFloat.emin prec emax < Zpos (digits2_pos p2) + e') by lia.
  destruct (FloatRounding.shr_fexp_positive p2 e' loc_Exact H2) as (p3 & E3 & D3).
  destruct (shr_fexp prec emax (Zpos p2) e' loc_Exact) as [mrs'' e''] eqn:S2.
  cbn [fst snd] in E3, D3. rewrite E3.
  destruct (e'' <=? emax - prec); eauto.
Qed.

Lemma binary_round_shape (sx : bool) (m : positive) (e : Z) :
  SpecFloat.emin prec emax < Zpos (digits2_pos m) + e ->
  (exists m' e', binary_round prec emax sx m e = S754_finite sx m' e')
  \/ binary_round prec emax sx m e = S754_infinity sx.
Proof.
  intros H. unfold binary_round.
  set (tg := SpecFloat.fexp prec emax (Zpos (digits2_pos m) + e)).
  destruct (Z.le_gt_cases e tg) as [L|G].
  - rewrite FloatRounding.shl_align_keeps by exact L.
    apply binary_round_aux_shape. exact H.
  - destruct (FloatRounding.shl_align_value m e tg ltac:(lia)) as [V S].
    destruct (shl_align m e tg) as [mz ez]. cbn [fst snd] in V, S. subst ez.
    apply binary_round_aux_shape.
    pose proof (FloatRounding.digits2_pos_bounds m) as [Lm _].
    assert (B : 2 ^ (Zpos (digits2_pos m) + (e - tg) - 1) <= Zpos mz).
    { rewrite V.
      replace (Zpos (digits2_pos m) + (e - tg) - 1)
        with ((Zpos (digits2_pos m) - 1) + (e - tg)) by lia.
      rewrite Z.pow_add_r by lia.
      apply Z.mul_le_mono_nonneg_r; [apply Z.pow_nonneg; lia|exact Lm]. }
    pose proof (FloatRounding.digits2_pos_lower mz _ B). lia.
Qed.

(** The sum of a non-negative float and one tenth is a positive finite
    float or plus infinity. *)
Lemma SFadd_tenth_shape (x : spec_float) :
  SFleb (S754_zero false) x = true ->
  (exists m e, SF64add x (S754_finite false 7205759403792794 (-56)) = S754_finite false m e)
  \/ SF64add x (S754_finite false 7205759403792794 (-56)) = S754_infinity false.
Proof.
  destruct x as [s|s| |s m e]; try discriminate.
  - intros _. left. do 2 eexists. reflexivity.
  - destruct s; [discriminate|]. intros _. right. reflexivity.
  - destruct s; [discriminate|]. intros _.
    unfold SF64add, SFadd. cbn [cond_Zopp].
    set (ez := Z.min e (-56)).
    destruct (FloatRounding.shl_align_value 7205759403792794 (-56) ez
                ltac:(unfold ez; lia)) as [V _].
    set (t' := fst (shl_align 7205759403792794 (-56) ez)) in *.
    set (m' := fst (shl_align m e ez)).
    change (Zpos m' + Zpos t') with (Zpos (m' + t')).
    cbn [binary_normalize].
    apply binary_round_shape.
    assert (B : 2 ^ (- 3 - ez - 1) <= Zpos (m' + t')).
    { rewrite Pos2Z.inj_add, V.
      assert (2 ^ 52 * 2 ^ (-56 - ez) <= 7205759403792794 * 2 ^ (-56 - ez)).
      { apply Z.mul_le_mono_nonneg_r; [apply Z.pow_nonneg; lia|].
        change (2 ^ 52) with 4503599627370496. lia. }
      rewrite <- Z.pow_add_r in H by (unfold ez; lia).
      replace (52 + (-56 - ez)) with (-3 - ez - 1) in H by lia. lia. }
    pose proof (FloatRounding.digits2_pos_lower _ _ B).
    unfold SpecFloat.emin, prec, emax. lia.
Qed.

(** Zero divided by a positive finite float or by plus infinity is zero. *)
Lemma zero_div (x d : float) :
  (x =? 0)%float = true ->
  ((exists m e, Prim2SF d = S754_finite false m e) \/ Prim2SF d = S754_infinity false) ->
  (x / d =? 0)%float = true.
Proof.
  intros Hx Hd. rewrite FloatAxioms.eqb_spec, FloatAxioms.div_spec.
  rewrite FloatAxioms.eqb_spec in Hx.
  change (Prim2SF 0) with (S754_zero false) in *.
  destruct (Prim2SF x) as [s|s| |s m e]; try discriminate.
  - destruct Hd as [(m & e & ->)| ->]; reflexivity.
  - destruct s; discriminate.
  - destruct s; discriminate.
Qed.

End FloatSum.

(** X21: an inaccurate answer scores zero whatever its latency.  For a
    record whose accuracy score is [0.0] and whose response time is missing
    or not negative, the efficiency score is zero (and so a number, not
    NaN): it ranks no higher than any record whose score is not negative. *)
Theorem inaccurate_answer_scores_zero (r : row) :
  (is_correct r =? 0.0)%float = true ->
  Pandas.isna (response_time r) = true \/ (0 <=? response_time r)%float = true ->
  (efficiency_score r =? 0)%float = true
  /\ Pandas.notna (efficiency_score r) = true
  /\ forall r' : row,
       (0 <=? efficiency_score r')%float = true ->
       Pandas.ranks_no_lower efficiency_score r' r.
Proof.
  intros Hx Ht.
  assert (Z0 : (efficiency_score r =? 0)%float = true).
  { unfold efficiency_score. apply FloatSum.zero_div; [exact Hx|].
    destruct Ht as [Ht|Ht].
    - rewrite (fillna_missing 0 _ Ht). left. do 2 eexists. reflexivity.
    - rewrite fillna_present
        by (apply notna_true; apply (FloatOrder.leb_not_nan _ _ Ht)).
      rewrite FloatAxioms.add_spec, FloatRounding.Prim2SF_tenth.
      apply FloatSum.SFadd_tenth_shape. rewrite FloatAxioms.leb_spec in Ht. exact Ht. }
  split; [exact Z0|]. split.
  - apply notna_true. apply (FloatOrder.eqb_true_not_nan _ _ Z0).
  - intros r' H'. right. unfold Pandas.key_ge.
    rewrite FloatAxioms.leb_spec in H' |- *. rewrite FloatAxioms.eqb_spec in Z0.
    change (Prim2SF 0) with (S754_zero false) in *.
    destruct (Prim2SF (efficiency_score r)) as [s|s| |s m e]; try discriminate Z0.
    + destruct s; exact H'.
    + destruct s; discriminate Z0.
    + destruct s; discriminate Z0.
Qed.

Lemma inaccurate_answer_scores_zero_witness :
  (is_correct (sample_row 3 0.0 0.5) =? 0.0)%float = true
  /\ (0 <=? response_time (sample_row 3 0.0 0.5))%float = true
  /\ (efficiency_score (sample_row 3 0.0 0.5) =? 0)%float = true.
Proof.
  split; [reflexivity|]. split; [reflexivity|].
  exact (proj1 (inaccurate_answer_scores_zero (sample_row 3 0.0 0.5) eq_refl
                  (or_intror eq_refl))).
Defined.
